(** * AdaptiveCare: the dashboard's decision, capacity and vitals logic

    A shallow embedding of the TypeScript sources of the AdaptiveCare
    frontend (types/hospital.ts, lib/display-utils.ts, lib/api.ts, the
    hooks useDecisions / useCapacity / usePatients, the components
    CapacityCard, PatientQueue, PatientDetailPanel and DecisionFeed,
    the pages CapacityIntelligence and SimulationControl, and the
    WebSocket dispatcher of AppLayout), together with a model of the
    coordination core's MCDA and Decision Engine, whose Python sources
    are not part of the tree and which are therefore modelled from the
    design text. *)

From Stdlib Require Import QArith Qminmax Qround Qabs Lqa ZArith Lia.
From stdpp Require Import base option list sorting strings pretty gmap.

Local Open Scope Z_scope.
Local Open Scope Q_scope.
Local Open Scope string_scope.

(** ** JavaScript numbers

    A [number] is a finite value, one of the two infinities, or NaN.
    Finite values are taken as exact rationals.  Every comparison that
    involves NaN is false, as in IEEE 754. *)

Module Js.

Inductive number : Type :=
  | NegInf
  | Finite (q : Q)
  | PosInf
  | NaN.

Definition Qlt_bool (x y : Q) : bool := negb (Qle_bool y x).

(** [a < b] *)
Definition lt (a b : number) : bool :=
  match a, b with
  | NaN, _ | _, NaN => false
  | PosInf, _ => false
  | _, NegInf => false
  | NegInf, _ => true
  | Finite _, PosInf => true
  | Finite x, Finite y => Qlt_bool x y
  end.

(** [a > b] *)
Definition gt (a b : number) : bool := lt b a.

(** [a >= b] *)
Definition ge (a b : number) : bool :=
  match a, b with
  | NaN, _ | _, NaN => false
  | PosInf, _ => true
  | _, NegInf => true
  | NegInf, _ => false
  | Finite _, PosInf => false
  | Finite x, Finite y => Qle_bool y x
  end.

Definition lit (z : Z) : number := Finite (inject_Z z).

(** [Math.round(x)] on a finite value: the nearest integer, a tie
    going up. *)
Definition round (x : Q) : Z := Qfloor (x + (1 # 2)).

(** [Array.prototype.sort(compareFn)] on a copy of the array.  The
    language requires the sort to be stable and, for a consistent
    comparator, to return the elements in comparator order; a stable
    insertion sort is the reference model of exactly that.  The
    comparator result is a finite number here: negative puts [a]
    first, positive puts [b] first, zero keeps the input order. *)
Section Sort.
Context {A : Type} (compareFn : A -> A -> Q).

Fixpoint insert (a : A) (l : list A) : list A :=
  match l with
  | [] => [a]
  | b :: rest =>
      if Qle_bool (compareFn a b) 0 then a :: b :: rest
      else b :: insert a rest
  end.

Fixpoint sort (l : list A) : list A :=
  match l with
  | [] => []
  | a :: rest => insert a (sort rest)
  end.
End Sort.

End Js.

(** ** types/hospital.ts *)

Module Types.

(** At run time the union types are plain strings; a value received
    over the wire is cast, not checked.  Each union is therefore kept
    as the list of its string members. *)

(** [type LocationType = 'ED' | 'ICU' | 'Ward' | 'ED_Obs' | 'OR'] *)
Definition LocationType : list string :=
  ["ED"; "ICU"; "Ward"; "ED_Obs"; "OR"].

(** [type Trajectory = 'improving' | 'stable' | 'deteriorating' | 'critical'] *)
Definition Trajectory : list string :=
  ["improving"; "stable"; "deteriorating"; "critical"].

(** [type ActionType = 'escalate' | 'observe' | 'delay' | 'transfer' | 'admit'] *)
Definition ActionType : list string :=
  ["escalate"; "observe"; "delay"; "transfer"; "admit"].

(** [type WebSocketEventType] *)
Definition WebSocketEventType : list string :=
  ["patient.arrival";
   "vitals.update";
   "risk_monitor.risk_calculated";
   "capacity_intelligence.capacity_updated";
   "escalation_decision.decision_made";
   "simulation.tick"].

(** Membership in a union of string literals. *)
Definition is_member (u : list string) (s : string) : bool :=
  bool_decide (s ∈ u).

(** A payload as it arrives ([data: unknown]): an object whose fields
    are read by name; a missing field reads as [undefined] ([None]).
    Only string-valued fields are read by the code embedded here. *)
Definition Payload : Type := list (string * string).

Fixpoint field (name : string) (o : Payload) : option string :=
  match o with
  | [] => None
  | (k, v) :: rest => if String.eqb k name then Some v else field name rest
  end.

(** [interface WebSocketEvent { type: WebSocketEventType; data: unknown }] *)
Record WebSocketEvent : Type := {
  type : string;
  data : Payload;
}.

(** [interface UnitCapacity]; the numbers are finite. *)
Record UnitCapacity : Type := {
  unit : string;
  total_beds : Z;
  occupied_beds : Z;
  available_beds : Z;
  occupancy_rate : Q;
  staff_on_duty : Z;
  patients_per_nurse : Q;
  capacity_score : Q;
}.

End Types.

(** ** lib/display-utils.ts *)

Module DisplayUtils.

Import Js.

Record ActionInfo : Type := {
  label : string;
  color : string;
  bgColor : string;
}.

(** [getActionInfo(action)]: a [switch] over the action string with a
    [default] branch. *)
Definition getActionInfo (action : string) : ActionInfo :=
  if String.eqb action "escalate" then
    {| label := "Escalate"; color := "text-red-500"; bgColor := "bg-red-500/10" |}
  else if String.eqb action "transfer" then
    {| label := "Transfer"; color := "text-orange-500"; bgColor := "bg-orange-500/10" |}
  else if String.eqb action "admit" then
    {| label := "Admit"; color := "text-blue-500"; bgColor := "bg-blue-500/10" |}
  else if String.eqb action "observe" then
    {| label := "Observe"; color := "text-yellow-500"; bgColor := "bg-yellow-500/10" |}
  else if String.eqb action "delay" then
    {| label := "Delay"; color := "text-gray-500"; bgColor := "bg-gray-500/10" |}
  else
    {| label := "Unknown"; color := "text-gray-500"; bgColor := "bg-gray-500/10" |}.

(** [getVitalStatus(vital, value)] *)
Definition getVitalStatus (vital : string) (value : number) : string :=
  if String.eqb vital "heart_rate" then
    if lt value (lit 40) || gt value (lit 150) then "critical"
    else if lt value (lit 50) || gt value (lit 120) then "warning"
    else "normal"
  else if String.eqb vital "oxygen_saturation" then
    if lt value (lit 88) then "critical"
    else if lt value (lit 92) then "warning"
    else "normal"
  else if String.eqb vital "blood_pressure_systolic" then
    if lt value (lit 80) || gt value (lit 200) then "critical"
    else if lt value (lit 90) || gt value (lit 160) then "warning"
    else "normal"
  else if String.eqb vital "respiratory_rate" then
    if lt value (lit 8) || gt value (lit 35) then "critical"
    else if lt value (lit 10) || gt value (lit 25) then "warning"
    else "normal"
  else if String.eqb vital "temperature" then
    if lt value (lit 35) || gt value (lit 40) then "critical"
    else if lt value (lit 36) || gt value (lit 38) then "warning"
    else "normal"
  else "normal".

(** The five names that have a [case] of their own. *)
Definition recognizedVitals : list string :=
  ["heart_rate"; "oxygen_saturation"; "blood_pressure_systolic";
   "respiratory_rate"; "temperature"].

(** The condition of the first [if] of each [case] (the critical
    bounds) and of the second (the warning bounds), read off the
    source; [getVitalStatus_guards] below ties them to the function. *)
Definition criticalBounds (vital : string) (value : number) : bool :=
  if String.eqb vital "heart_rate" then lt value (lit 40) || gt value (lit 150)
  else if String.eqb vital "oxygen_saturation" then lt value (lit 88)
  else if String.eqb vital "blood_pressure_systolic" then lt value (lit 80) || gt value (lit 200)
  else if String.eqb vital "respiratory_rate" then lt value (lit 8) || gt value (lit 35)
  else if String.eqb vital "temperature" then lt value (lit 35) || gt value (lit 40)
  else false.

Definition warningBounds (vital : string) (value : number) : bool :=
  if String.eqb vital "heart_rate" then lt value (lit 50) || gt value (lit 120)
  else if String.eqb vital "oxygen_saturation" then lt value (lit 92)
  else if String.eqb vital "blood_pressure_systolic" then lt value (lit 90) || gt value (lit 160)
  else if String.eqb vital "respiratory_rate" then lt value (lit 10) || gt value (lit 25)
  else if String.eqb vital "temperature" then lt value (lit 36) || gt value (lit 38)
  else false.

(** The same two guards consulted in the opposite order: the reading
    under which "the guard order does not matter" is to be tested.
    This variant is not in the source. *)
Definition getVitalStatus_warning_first (vital : string) (value : number) : string :=
  if warningBounds vital value then "warning"
  else if criticalBounds vital value then "critical"
  else "normal".

(** [getRiskBgColor(riskScore)] and [getRiskTextColor(riskScore)] *)
Definition getRiskBgColor (riskScore : number) : string :=
  if ge riskScore (lit 70) then "bg-red-500/10 border-red-500"
  else if ge riskScore (lit 50) then "bg-orange-500/10 border-orange-500"
  else if ge riskScore (lit 30) then "bg-yellow-500/10 border-yellow-500"
  else "bg-green-500/10 border-green-500".

Definition getRiskTextColor (riskScore : number) : string :=
  if ge riskScore (lit 70) then "text-red-500"
  else if ge riskScore (lit 50) then "text-orange-500"
  else if ge riskScore (lit 30) then "text-yellow-500"
  else "text-green-500".

Record TrajectoryInfo : Type := {
  trajectoryLabel : string;
  trajectoryColor : string;
  icon : string;
}.

(** [getTrajectoryInfo(trajectory)]; the icons are emoji. *)
Definition getTrajectoryInfo (trajectory : string) : TrajectoryInfo :=
  if String.eqb trajectory "critical" then
    {| trajectoryLabel := "Critical"; trajectoryColor := "text-red-500"; icon := "🚨" |}
  else if String.eqb trajectory "deteriorating" then
    {| trajectoryLabel := "Deteriorating"; trajectoryColor := "text-orange-500"; icon := "📉" |}
  else if String.eqb trajectory "stable" then
    {| trajectoryLabel := "Stable"; trajectoryColor := "text-blue-500"; icon := "➡️" |}
  else if String.eqb trajectory "improving" then
    {| trajectoryLabel := "Improving"; trajectoryColor := "text-green-500"; icon := "📈" |}
  else
    {| trajectoryLabel := "Unknown"; trajectoryColor := "text-gray-500"; icon := "❓" |}.

(** [getLocationColor(location)] *)
Definition getLocationColor (location : string) : string :=
  if String.eqb location "ICU" then "bg-red-500/20 text-red-400"
  else if String.eqb location "ED" then "bg-orange-500/20 text-orange-400"
  else if String.eqb location "Ward" then "bg-blue-500/20 text-blue-400"
  else if String.eqb location "ED_Obs" then "bg-yellow-500/20 text-yellow-400"
  else if String.eqb location "OR" then "bg-purple-500/20 text-purple-400"
  else "bg-gray-500/20 text-gray-400".

(** [formatTimeAgo(dateString)] for a well-formed date, given the two
    instants [now.getTime()] and [date.getTime()] in milliseconds.
    [Math.floor] of a quotient is the floor division of [Z]; a number
    in a template literal prints in decimal. *)
Definition formatTimeAgo (now date : Z) : string :=
  let diffMs := (now - date)%Z in
  let diffMins := (diffMs / 60000)%Z in
  if (diffMins <? 1)%Z then "Just now"
  else if (diffMins <? 60)%Z then pretty diffMins +:+ "m ago"
  else
    let diffHours := (diffMins / 60)%Z in
    if (diffHours <? 24)%Z then pretty diffHours +:+ "h ago"
    else
      let diffDays := (diffHours / 24)%Z in
      pretty diffDays +:+ "d ago".

(** [formatWaitTime(minutes)] for a whole, non-negative number of
    minutes. *)
Definition formatWaitTime (minutes : N) : string :=
  if (minutes <? 60)%N then pretty minutes +:+ "m"
  else
    let hours := (minutes / 60)%N in
    let mins := (minutes mod 60)%N in
    if (mins =? 0)%N then pretty hours +:+ "h"
    else pretty hours +:+ "h " +:+ pretty mins +:+ "m".

(** [getVitalStatusColor(status)]: a [switch] with no [default]; a
    string without a [case] falls off the end ([undefined]). *)
Definition getVitalStatusColor (status : string) : option string :=
  if String.eqb status "critical" then Some "text-red-500"
  else if String.eqb status "warning" then Some "text-yellow-500"
  else if String.eqb status "normal" then Some "text-green-500"
  else None.

(** [getOccupancyColor(rate)] *)
Definition getOccupancyColor (rate : number) : string :=
  if ge rate (Finite (9 # 10)) then "text-red-500"
  else if ge rate (Finite (75 # 100)) then "text-orange-500"
  else if ge rate (Finite (1 # 2)) then "text-yellow-500"
  else "text-green-500".

End DisplayUtils.

(** ** hooks/useDecisions.ts *)

Module UseDecisions.

(** The updater handed to [setQueryData] by [addDecision]:
    [(old = []) => [decision, ...old].slice(0, 50)].  The cache entry
    may be absent ([undefined]), in which case the default applies. *)
Definition addDecision {A : Type} (decision : A) (old : option (list A)) : list A :=
  take 50 (decision :: default [] old).

End UseDecisions.

(** ** hooks/useCapacity.ts *)

Module UseCapacity.

Import Js.

(** The literals [0.5] and [0.7] are [1 # 2] and [7 # 10]. *)
Definition getCapacityColor (occupancyRate : number) : string :=
  if lt occupancyRate (Finite (1 # 2)) then "available"
  else if lt occupancyRate (Finite (7 # 10)) then "moderate"
  else "critical".

Definition getCapacityScoreColor (score : number) : string :=
  if gt score (lit 50) then "available"
  else if gt score (lit 30) then "moderate"
  else "critical".

End UseCapacity.

(** ** components/dashboard/CapacityCard.tsx *)

Module CapacityCard.

Import Js.

Definition getCapacityColor (occupancyRate : number) : string :=
  if lt occupancyRate (Finite (1 # 2)) then "text-capacity-available"
  else if lt occupancyRate (Finite (7 # 10)) then "text-capacity-moderate"
  else "text-capacity-critical".

Definition getProgressColor (occupancyRate : number) : string :=
  if lt occupancyRate (Finite (1 # 2)) then "bg-capacity-available"
  else if lt occupancyRate (Finite (7 # 10)) then "bg-capacity-moderate"
  else "bg-capacity-critical".

(** [getUnitLabel(unit)]: the [default] returns the unit itself. *)
Definition getUnitLabel (unit : string) : string :=
  if String.eqb unit "ED" then "Emergency Dept"
  else if String.eqb unit "ICU" then "Intensive Care"
  else if String.eqb unit "Ward" then "General Ward"
  else if String.eqb unit "ED_Obs" then "ED Observation"
  else if String.eqb unit "OR" then "Operating Room"
  else unit.

(** [Math.round(capacity.occupancy_rate * 100)], printed with a [%]
    and used as the width of the progress bar.  The product is a
    double: [times100 r] stands for the value of the double that
    [r * 100] evaluates to, which is the double nearest to the exact
    product; the multiplication of doubles is taken as a parameter.
    [Math.round] of that double is exact. *)
Section OccupancyPercent.
Variable times100 : Q -> Q.

Definition occupancyPercent (capacity : Types.UnitCapacity) : Z :=
  Js.round (times100 (Types.occupancy_rate capacity)).
End OccupancyPercent.

(** What rounding to the nearest double guarantees for a rate between
    0 and 1: the exact product is at most 100, below 128, where two
    neighbouring doubles are [2^-46] apart, so the double product is
    within [2^-47] of it. *)
Definition nearestDouble (times100 : Q -> Q) : Prop :=
  forall r, 0 <= r -> r <= 1 ->
    Qabs (times100 r - r * 100) <= 1 # 140737488355328.

(** [CapacityOverview]:
    [capacities.filter(c => ['ED', 'ICU', 'Ward'].includes(c.unit))] *)
Definition mainUnits (capacities : list Types.UnitCapacity) : list Types.UnitCapacity :=
  filter (fun c => Types.unit c ∈ ["ED"; "ICU"; "Ward"]) capacities.

End CapacityCard.

(** ** components/dashboard/PatientQueue.tsx *)

Module PatientQueue.

(** [interface RiskAssessment]; scores are finite numbers. *)
Record RiskAssessment : Type := {
  ra_patient_id : string;
  risk_score : Q;
  trajectory : string;
  confidence : Q;
  contributing_factors : list string;
}.

(** [interface PatientWithRisk extends Patient], with the fields the
    queue reads.  [arrival_time] holds
    [new Date(arrival_time).getTime()], the arrival instant in
    milliseconds, for a well-formed date string. *)
Record PatientWithRisk : Type := {
  patient_id : string;
  name : string;
  arrival_time : Z;
  risk_assessment : option RiskAssessment;
}.

(** [a.risk_assessment?.risk_score ?? 0] *)
Definition riskOf (p : PatientWithRisk) : Q :=
  from_option risk_score 0 (risk_assessment p).

(** The comparator passed to [sort]: risk score, highest first, then
    arrival time, oldest first. *)
Definition compareFn (a b : PatientWithRisk) : Q :=
  let riskA := riskOf a in
  let riskB := riskOf b in
  if negb (Qeq_bool riskB riskA) then riskB - riskA
  else inject_Z (arrival_time a) - inject_Z (arrival_time b).

(** [const sortedPatients = [...patients].sort(...)] *)
Definition sortedPatients (patients : list PatientWithRisk) : list PatientWithRisk :=
  Js.sort compareFn patients.

(** [a] may stand before [b] in the sorted queue. *)
Definition before (a b : PatientWithRisk) : Prop := compareFn a b <= 0.

(** Two patients the comparator cannot tell apart. *)
Definition tied (a b : PatientWithRisk) : Prop :=
  riskOf a == riskOf b /\ arrival_time a = arrival_time b.

(** The icons [TrajectoryIcon] can render. *)
Inductive Icon : Type :=
  | TrendingUp
  | TrendingDown
  | Minus.

(** [TrajectoryIcon({ trajectory })]: a [switch] over
    [getTrajectoryInfo(trajectory).icon] with the cases ['up'] and
    ['down'] and a [default]. *)
Definition TrajectoryIcon (trajectory : string) : Icon :=
  let info := DisplayUtils.getTrajectoryInfo trajectory in
  if String.eqb (DisplayUtils.icon info) "up" then TrendingUp
  else if String.eqb (DisplayUtils.icon info) "down" then TrendingDown
  else Minus.

(** What [PatientCard] derives from its props before rendering:
    [riskAssessment?.risk_score ?? 0],
    [riskAssessment?.trajectory ?? 'stable'] and
    [trajectory === 'critical' || riskScore >= 90]. *)
Definition cardRiskScore (riskAssessment : option RiskAssessment) : Q :=
  from_option risk_score 0 riskAssessment.

Definition cardTrajectory (riskAssessment : option RiskAssessment) : string :=
  from_option trajectory "stable" riskAssessment.

Definition isCritical (riskAssessment : option RiskAssessment) : bool :=
  String.eqb (cardTrajectory riskAssessment) "critical"
  || Qle_bool 90 (cardRiskScore riskAssessment).

(** The class of the score badge: [getRiskBgColor(riskScore)]. *)
Definition cardBadge (riskAssessment : option RiskAssessment) : string :=
  DisplayUtils.getRiskBgColor (Js.Finite (cardRiskScore riskAssessment)).

End PatientQueue.

(** ** components/layout/AppLayout.tsx and the hooks it calls *)

Module AppLayout.

Import Types.

Record Toast : Type := {
  title : string;
  description : string;
  variant : string;
}.

(** What the handler can change: the query cache (the entries
    [['patient-risk', id]] and [['decisions', 50]], and the list of
    query keys invalidated so far, latest first) and the toasts
    raised, latest first. *)
Record Client : Type := {
  patientRisk : gmap (option string) Payload;
  decisions50 : option (list Payload);
  invalidated : list string;
  toasts : list Toast;
}.

Definition invalidatePatients (c : Client) : Client :=
  {| patientRisk := patientRisk c; decisions50 := decisions50 c;
     invalidated := "patients" :: invalidated c; toasts := toasts c |}.

Definition invalidateCapacity (c : Client) : Client :=
  {| patientRisk := patientRisk c; decisions50 := decisions50 c;
     invalidated := "capacity" :: invalidated c; toasts := toasts c |}.

Definition updatePatientRisk (patientId : option string) (risk : Payload)
    (c : Client) : Client :=
  {| patientRisk := <[patientId := risk]> (patientRisk c);
     decisions50 := decisions50 c;
     invalidated := invalidated c; toasts := toasts c |}.

Definition addDecision (decision : Payload) (c : Client) : Client :=
  {| patientRisk := patientRisk c;
     decisions50 := Some (UseDecisions.addDecision decision (decisions50 c));
     invalidated := invalidated c; toasts := toasts c |}.

Definition toast (t : Toast) (c : Client) : Client :=
  {| patientRisk := patientRisk c; decisions50 := decisions50 c;
     invalidated := invalidated c; toasts := t :: toasts c |}.

(** The branches of the [switch (event.type)]. *)
Inductive Branch : Type :=
  | CasePatientArrival
  | CaseVitalsUpdate
  | CaseRiskCalculated
  | CaseCapacityUpdated
  | CaseDecisionMade
  | CaseDefault.

Definition branchOf (type : string) : Branch :=
  if String.eqb type "patient.arrival" then CasePatientArrival
  else if String.eqb type "vitals.update" then CaseVitalsUpdate
  else if String.eqb type "risk_monitor.risk_calculated" then CaseRiskCalculated
  else if String.eqb type "capacity_intelligence.capacity_updated" then CaseCapacityUpdated
  else if String.eqb type "escalation_decision.decision_made" then CaseDecisionMade
  else CaseDefault.

(** A template literal prints a missing field as [undefined]. *)
Definition show (v : option string) : string := default "undefined" v.

Definition handleWebSocketMessage (event : WebSocketEvent) (c : Client) : Client :=
  match branchOf (type event) with
  | CasePatientArrival => invalidatePatients c
  | CaseVitalsUpdate => invalidatePatients c
  | CaseRiskCalculated =>
      let riskData := data event in
      let c := updatePatientRisk (field "patient_id" riskData) riskData c in
      if bool_decide (field "trajectory" riskData = Some "critical") then
        toast {| title := "Critical Risk Alert";
                 description := "Patient " +:+ show (field "patient_id" riskData)
                                +:+ " has entered critical status";
                 variant := "destructive" |} c
      else c
  | CaseCapacityUpdated => invalidateCapacity c
  | CaseDecisionMade =>
      let decision := data event in
      addDecision decision c
  | CaseDefault => c
  end.

(** [DecisionItem] of DecisionFeed.tsx:
    [const actionInfo = getActionInfo(decision.action)]; a missing
    action matches no [case], like any string without one. *)
Definition DecisionItem (decision : Payload) : DisplayUtils.ActionInfo :=
  DisplayUtils.getActionInfo (default "" (field "action" decision)).

(** The messages of a session, handled in the order they arrive. *)
Definition handleAll (events : list WebSocketEvent) (c : Client) : Client :=
  foldl (fun c event => handleWebSocketMessage event c) c events.

(** What Dashboard hands to the decision feed: [decisions ?? []]. *)
Definition feed (c : Client) : list Payload := default [] (decisions50 c).

(** Three readings of a message sequence, used to state what the
    handler has done after it: the payloads of the decision messages,
    the risk messages that carry a critical trajectory, and the risk
    messages for one patient id, each in arrival order. *)
Definition decisionMessage (decision : Payload) : WebSocketEvent :=
  {| type := "escalation_decision.decision_made"; data := decision |}.

Definition decisionsIn (events : list WebSocketEvent) : list Payload :=
  data <$> filter (fun e => type e = "escalation_decision.decision_made") events.

Definition criticalAlertsIn (events : list WebSocketEvent) : list WebSocketEvent :=
  filter (fun e => type e = "risk_monitor.risk_calculated" /\
                   field "trajectory" (data e) = Some "critical") events.

Definition riskUpdatesFor (patientId : option string)
    (events : list WebSocketEvent) : list WebSocketEvent :=
  filter (fun e => type e = "risk_monitor.risk_calculated" /\
                   field "patient_id" (data e) = patientId) events.

End AppLayout.

(** ** components/dashboard/DecisionFeed.tsx *)

Module DecisionFeed.

Import Types.

(** The body of the auto-scroll effect, run with the length the feed
    had at the previous run in [prevLengthRef]: whether the scroll
    position is reset to the top, and the length stored for the next
    run. *)
Definition autoScrollEffect (autoScroll hasScrollRef : bool)
    (prevLength length : nat) : bool * nat :=
  (autoScroll && (prevLength <? length)%nat && hasScrollRef, length).

End DecisionFeed.

(** ** components/dashboard/PatientDetailPanel.tsx *)

Module PatientDetailPanel.

Import Types.

(** [VitalsChart]: [vitals.slice(-20).map(...)]; a negative start
    counts from the end and stops at the first element. *)
Definition chartData {V P : Type} (point : V -> P) (vitals : list V) : list P :=
  point <$> drop (length vitals - 20) vitals.

(** [allDecisions?.filter((d) => d.patient_id === patient.patient_id) ?? []] *)
Definition patientDecisions (allDecisions : option (list Payload))
    (patientId : string) : list Payload :=
  from_option (filter (fun d => field "patient_id" d = Some patientId)) [] allDecisions.

(** The decisions listed under Recent Decisions:
    [patientDecisions.slice(0, 5)]. *)
Definition recentDecisions (allDecisions : option (list Payload))
    (patientId : string) : list Payload :=
  take 5 (patientDecisions allDecisions patientId).

End PatientDetailPanel.

(** ** pages/CapacityIntelligence.tsx *)

Module CapacityIntelligence.

Import Js Types.

Definition getCapacityColorClass (occupancyRate : number) : string :=
  if lt occupancyRate (Finite (1 # 2)) then "bg-capacity-available"
  else if lt occupancyRate (Finite (7 # 10)) then "bg-capacity-moderate"
  else "bg-capacity-critical".

(** One tile of [CapacityHeatmap]. *)
Record Tile : Type := {
  tileUnit : string;
  occupancy : Q;
  tilePercent : Z;
  glow : bool;
  colorClass : string;
  beds : option (Z * Z);
}.

Definition units : list string := ["ED"; "ICU"; "Ward"; "ED_Obs"; "OR"].

(** The body of [units.map((unit) => ...)]:
    [capacities.find((c) => c.unit === unit)],
    [capacity?.occupancy_rate ?? 0], and what is rendered from them.
    [tilePercent] takes the product [occupancy * 100] exactly; it is
    read below only for a unit without an entry, at occupancy 0,
    where the double product is exact as well. *)
Definition tile (capacities : list UnitCapacity) (u : string) : Tile :=
  let capacity := List.find (fun c => String.eqb (unit c) u) capacities in
  let occupancy := from_option occupancy_rate 0 capacity in
  {| tileUnit := u;
     occupancy := occupancy;
     tilePercent := round (occupancy * 100);
     glow := Qle_bool (9 # 10) occupancy;
     colorClass := getCapacityColorClass (Finite occupancy);
     beds := (fun c => (available_beds c, total_beds c)) <$> capacity |}.

Definition CapacityHeatmap (capacities : list UnitCapacity) : list Tile :=
  tile capacities <$> units.

(** [UnitBreakdownTable]:
    [Math.min(100, cap.patients_per_nurse * 20)] and the class of the
    workload bar. *)
Definition workloadPercent (cap : UnitCapacity) : Q :=
  Qmin 100 (patients_per_nurse cap * 20).

Definition workloadClass (cap : UnitCapacity) : string :=
  if Qlt_bool 80 (workloadPercent cap) then "bg-capacity-critical"
  else if Qlt_bool 60 (workloadPercent cap) then "bg-capacity-moderate"
  else "bg-capacity-available".

(** [capacities?.filter((c) => c.occupancy_rate >= 0.8) ?? []] *)
Definition criticalUnits (capacities : option (list UnitCapacity)) : list UnitCapacity :=
  from_option (filter (fun c => Qle_bool (8 # 10) (occupancy_rate c))) [] capacities.

End CapacityIntelligence.

(** ** lib/api.ts *)

Module Api.

(** The path requested by [getDecisions(limit)] and
    [getLatestDecisions(limit)], for a whole, non-negative limit:
    [`/api/decisions${limit ? `?limit=${limit}` : ''}`]; a missing
    limit and the limit 0 are falsy. *)
Definition decisionsPath (limit : option N) : string :=
  "/api/decisions" +:+
  match limit with
  | Some n => if (n =? 0)%N then "" else "?limit=" +:+ pretty n
  | None => ""
  end.

(** The body posted by [startSimulation(scenario, speed)], before
    [JSON.stringify], for a whole speed, as the page's slider
    supplies; an empty scenario and the speed 0 are falsy.  For a
    whole speed below [2^48] in magnitude the product
    [speed * 12.5] is exact in double arithmetic. *)
Record StartBody : Type := {
  scenario : string;
  duration : Z;
  arrival_rate : Q;
}.

Definition startSimulation (scenario : option string) (speed : option Z) : StartBody :=
  {| scenario := match scenario with
                 | Some s => if String.eqb s "" then "busy_thursday" else s
                 | None => "busy_thursday"
                 end;
     duration := 120;
     arrival_rate := match speed with
                     | Some v => if (v =? 0)%Z then 25 # 2 else inject_Z v * (25 # 2)
                     | None => 25 # 2
                     end |}.

End Api.

(** ** pages/SimulationControl.tsx *)

Module SimulationControl.

(** The values of [scenarios] and of [speedOptions]; the latter is
    declared and not used: the speed comes from a slider with
    [min={1} max={10} step={1}]. *)
Definition scenarios : list string :=
  ["normal"; "high_ed"; "staff_shortage"; "mass_casualty"; "flu_season"].

Definition speedOptions : list Z := [1; 2; 5; 10]%Z.

Definition sliderMin : Z := 1.
Definition sliderMax : Z := 10.

(** [handleStart]: [startMutation.mutate({ scenario: selectedScenario,
    speed })], whose [mutationFn] calls [api.startSimulation]. *)
Definition handleStart (selectedScenario : string) (speed : Z) : Api.StartBody :=
  Api.startSimulation (Some selectedScenario) (Some speed).

End SimulationControl.

(** ** The coordination core: MCDA engine and Decision Engine

    backend/reasoning/mcda.py and backend/reasoning/decision_engine.py
    are not part of the tree; only the [MCDAScores] interface of
    types/hospital.ts is.  The definitions of this module follow the
    design text, sections 4.5 and 4.6. *)

Module Core.

(** Modelled from the spec: the weight vector of the MCDA engine
    (mcda.py is missing), one weight per named criterion. *)
Record Weights : Type := {
  w_safety : Q;
  w_urgency : Q;
  w_capacity : Q;
  w_impact : Q;
}.

(** Modelled from the spec: the criterion scores handed to the MCDA
    engine (mcda.py is missing), each pre-normalized by the caller. *)
Record Criteria : Type := {
  safety : Q;
  urgency : Q;
  capacity : Q;
  impact : Q;
}.

(** [interface MCDAScores] of types/hospital.ts. *)
Record MCDAScores : Type := {
  safety_score : Q;
  urgency_score : Q;
  capacity_score : Q;
  impact_score : Q;
  weighted_total : Q;
}.

(** Modelled from the spec: the weight vector is admissible when the
    weights are non-negative and sum to 1. *)
Definition admissible (w : Weights) : Prop :=
  0 <= w_safety w /\ 0 <= w_urgency w /\ 0 <= w_capacity w /\ 0 <= w_impact w /\
  w_safety w + w_urgency w + w_capacity w + w_impact w == 1.

(** Modelled from the spec: a criterion vector is normalized when
    every score lies in [0,1]. *)
Definition normalized (c : Criteria) : Prop :=
  (0 <= safety c /\ safety c <= 1) /\ (0 <= urgency c /\ urgency c <= 1) /\
  (0 <= capacity c /\ capacity c <= 1) /\ (0 <= impact c /\ impact c <= 1).

(** Modelled from the spec: the scoring function of the MCDA engine
    (mcda.py is missing): [weightedTotal = Σ weight_i * score_i], plus
    the per-criterion breakdown. *)
Definition weightedTotal (w : Weights) (c : Criteria) : Q :=
  w_safety w * safety c + w_urgency w * urgency c +
  w_capacity w * capacity c + w_impact w * impact c.

Definition mcda (w : Weights) (c : Criteria) : MCDAScores :=
  {| safety_score := safety c; urgency_score := urgency c;
     capacity_score := capacity c; impact_score := impact c;
     weighted_total := weightedTotal w c |}.






(** Modelled from the spec: the trajectory of a RiskAssessment. *)
Inductive Trajectory : Type :=
  | improving
  | stable
  | deteriorating
  | critical.

(** Modelled from the spec: the action of an EscalationDecision,
    section 3 of the design text; the members are named as in the
    backend's [ActionType] enum. *)
Inductive ActionType : Type :=
  | ESCALATE
  | OBSERVE
  | DELAY
  | REPRIORITIZE
  | TRANSFER
  | ADMIT.

(** The wire name of an action, as the presentation layer receives it. *)
Definition actionName (a : ActionType) : string :=
  match a with
  | ESCALATE => "escalate"
  | OBSERVE => "observe"
  | DELAY => "delay"
  | REPRIORITIZE => "reprioritize"
  | TRANSFER => "transfer"
  | ADMIT => "admit"
  end.

(** Modelled from the spec: the topics whose events are exposed to the
    presentation layer (section 6); the work-allocation document
    lists the same four as the event types of the four agents. *)
Definition exposedTopics : list string :=
  ["risk_monitor.risk_calculated";
   "capacity_intelligence.capacity_updated";
   "flow_orchestrator.recommendation_ready";
   "escalation_decision.decision_made"].

(** Modelled from the spec: the final decision, with the fields the
    Decision Engine computes. *)
Record EscalationDecision : Type := {
  action : ActionType;
  decision_confidence : Q;
  safe_to_wait : Q;
}.

Section DecisionEngine.

(** The design text fixes the safe-to-wait value only for a critical
    trajectory; for the other trajectories it asks for a function of
    trajectory and capacity score without giving one, so that part
    is left open, as is the configured threshold. *)
Variable nonCriticalSafeToWait : Trajectory -> Q -> Q.
Variable threshold : Q.

(** Modelled from the spec: the safe-to-wait value of the Decision
    Engine (decision_engine.py is missing): the critical-trajectory
    override, else the function of trajectory and capacity score. *)
Definition safeToWait (t : Trajectory) (capacityScore : Q) : Q :=
  match t with
  | critical => 0
  | _ => nonCriticalSafeToWait t capacityScore
  end.

(** Modelled from the spec: the action policy of the Decision Engine
    (decision_engine.py is missing): below the threshold the action
    is forced to escalate, otherwise the MCDA-ranked action stands. *)
Definition finalAction (safeToWaitValue : Q) (topRanked : ActionType) : ActionType :=
  if Js.Qlt_bool safeToWaitValue threshold then ESCALATE else topRanked.

(** Modelled from the spec: the confidence combination of the
    Decision Engine (decision_engine.py is missing): the minimum
    over the contributing assessments, of which there is at least
    one. *)
Definition combineConfidence (first : Q) (others : list Q) : Q :=
  foldl Qmin first others.

(** Modelled from the spec: the Decision Engine's [decide]
    (decision_engine.py is missing), from the risk trajectory, the
    capacity score, the action the MCDA ranking placed first and the
    confidences of the contributing assessments. *)
Definition decide (t : Trajectory) (capacityScore : Q) (topRanked : ActionType)
    (confidence : Q) (confidences : list Q) : EscalationDecision :=
  let stw := safeToWait t capacityScore in
  {| action := finalAction stw topRanked;
     decision_confidence := combineConfidence confidence confidences;
     safe_to_wait := stw |}.

End DecisionEngine.

End Core.

(** ** Reading back printed numbers *)

Module Text.

(** A decimal digit. *)
Definition isDigit (c : Ascii.ascii) : bool :=
  (48 <=? Ascii.nat_of_ascii c)%nat && (Ascii.nat_of_ascii c <=? 57)%nat.

(** The leading digits of a string, and what follows them. *)
Fixpoint splitDigits (s : string) : string * string :=
  match s with
  | EmptyString => (EmptyString, EmptyString)
  | String c rest =>
      if isDigit c then (String c (splitDigits rest).1, (splitDigits rest).2)
      else (EmptyString, s)
  end.

End Text.

(** ** Sample data *)

Module Samples.

Import Types.

(** A decision as the escalation agent publishes it, with the action
    [reprioritize]. *)
Definition reprioritizeDecision : Payload :=
  [("decision_id", "d-17"); ("patient_id", "P001");
   ("agent_name", "escalation_decision"); ("action", "reprioritize");
   ("reasoning", "queue position changed")].

Definition emptyClient : AppLayout.Client :=
  {| AppLayout.patientRisk := ∅; AppLayout.decisions50 := None;
     AppLayout.invalidated := []; AppLayout.toasts := [] |}.

(** Two patients admitted at the same instant, neither assessed yet. *)
Definition patientA : PatientQueue.PatientWithRisk :=
  {| PatientQueue.patient_id := "P001"; PatientQueue.name := "Asha";
     PatientQueue.arrival_time := 1700000000000;
     PatientQueue.risk_assessment := None |}.

Definition patientB : PatientQueue.PatientWithRisk :=
  {| PatientQueue.patient_id := "P002"; PatientQueue.name := "Bram";
     PatientQueue.arrival_time := 1700000000000;
     PatientQueue.risk_assessment := None |}.

(** Two assessed patients with the same risk score, the second one
    admitted a minute earlier. *)
Definition assessment (id : string) (score : Q) : PatientQueue.RiskAssessment :=
  {| PatientQueue.ra_patient_id := id; PatientQueue.risk_score := score;
     PatientQueue.trajectory := "stable"; PatientQueue.confidence := 4 # 5;
     PatientQueue.contributing_factors := [] |}.

Definition patientC : PatientQueue.PatientWithRisk :=
  {| PatientQueue.patient_id := "P003"; PatientQueue.name := "Chen";
     PatientQueue.arrival_time := 1700000060000;
     PatientQueue.risk_assessment := Some (assessment "P003" 80) |}.

Definition patientD : PatientQueue.PatientWithRisk :=
  {| PatientQueue.patient_id := "P004"; PatientQueue.name := "Dara";
     PatientQueue.arrival_time := 1700000000000;
     PatientQueue.risk_assessment := Some (assessment "P004" 80) |}.

(** An intensive-care unit with 17 of 20 beds occupied. *)
Definition icuCapacity : Types.UnitCapacity :=
  {| Types.unit := "ICU"; Types.total_beds := 20; Types.occupied_beds := 17;
     Types.available_beds := 3; Types.occupancy_rate := 17 # 20;
     Types.staff_on_duty := 6; Types.patients_per_nurse := 17 # 6;
     Types.capacity_score := 22 |}.

(** A double product that is not the exact one: 0.285 * 100 evaluates
    to 28.499999999999996; elsewhere this instance is exact. *)
Definition sampleTimes100 (r : Q) : Q :=
  if Qeq_bool r (285 # 1000) then 28499999999999996 # 1000000000000000
  else r * 100.

Definition wardCapacity : Types.UnitCapacity :=
  {| Types.unit := "Ward"; Types.total_beds := 200; Types.occupied_beds := 57;
     Types.available_beds := 143; Types.occupancy_rate := 285 # 1000;
     Types.staff_on_duty := 20; Types.patients_per_nurse := 57 # 20;
     Types.capacity_score := 71 |}.





Definition evenWeights : Core.Weights :=
  {| Core.w_safety := 1 # 4; Core.w_urgency := 1 # 4;
     Core.w_capacity := 1 # 4; Core.w_impact := 1 # 4 |}.

Definition sampleCriteria : Core.Criteria :=
  {| Core.safety := 9 # 10; Core.urgency := 1; Core.capacity := 0;
     Core.impact := 1 # 2 |}.

(** One admissible choice for the part of safe-to-wait the design
    text leaves open: the capacity score as a fraction of 100. *)
Definition capacityFraction (t : Core.Trajectory) (capacityScore : Q) : Q :=
  capacityScore / 100.

End Samples.

(** * Properties *)

(** Membership of a literal in a list of literals, and its negation,
    by evaluation. *)
Ltac by_evaluation :=
  match goal with
  | |- ?P => apply (bool_decide_unpack P); vm_compute; exact I
  end.

(** ** Comparisons *)

Lemma Qlt_bool_iff (x y : Q) : Js.Qlt_bool x y = true <-> x < y.
Proof.
  unfold Js.Qlt_bool. rewrite negb_true_iff. split.
  - intros H. apply Qnot_le_lt. intros Hle.
    apply Qle_bool_iff in Hle. congruence.
  - intros H. destruct (Qle_bool y x) eqn:E; [|reflexivity].
    apply Qle_bool_iff in E. exfalso. apply (Qlt_not_le _ _ H E).
Qed.

Lemma Qlt_bool_false_iff (x y : Q) : Js.Qlt_bool x y = false <-> y <= x.
Proof.
  unfold Js.Qlt_bool. rewrite negb_false_iff. apply Qle_bool_iff.
Qed.

(** A smaller bound implies a larger one, also at the infinities and
    at NaN (where neither holds). *)
Lemma lt_lit_mono (value : Js.number) (a b : Z) :
  (a <= b)%Z -> Js.lt value (Js.lit a) = true -> Js.lt value (Js.lit b) = true.
Proof.
  intros Hab. destruct value as [|q| |]; simpl; try done.
  rewrite !Qlt_bool_iff. intros H.
  apply Qlt_le_trans with (inject_Z a); [done|].
  by rewrite <- Zle_Qle.
Qed.

Lemma gt_lit_mono (value : Js.number) (a b : Z) :
  (b <= a)%Z -> Js.gt value (Js.lit a) = true -> Js.gt value (Js.lit b) = true.
Proof.
  intros Hab. destruct value as [|q| |]; simpl; try done.
  rewrite !Qlt_bool_iff. intros H.
  apply Qle_lt_trans with (inject_Z a); [|done].
  by rewrite <- Zle_Qle.
Qed.

Lemma orb_lit_mono (value : Js.number) (a a' b b' : Z) :
  (a <= a')%Z -> (b' <= b)%Z ->
  Js.lt value (Js.lit a) || Js.gt value (Js.lit b) = true ->
  Js.lt value (Js.lit a') || Js.gt value (Js.lit b') = true.
Proof.
  intros Ha Hb. rewrite !orb_true_iff.
  intros [H|H]; [left; by eapply lt_lit_mono|right; by eapply gt_lit_mono].
Qed.

(** ** addDecision *)

Section AddDecision.
Context {A : Type}.
Implicit Types (decision : A) (old : list A).

Lemma addDecision_cons decision old :
  UseDecisions.addDecision decision (Some old) = decision :: take 49 old.
Proof. reflexivity. Qed.

Lemma addDecision_absent decision :
  UseDecisions.addDecision decision None = [decision].
Proof. reflexivity. Qed.

(** C8: for every existing decision list and every new decision,
    [addDecision] returns a list whose first element is the new
    decision, whose remaining elements are a prefix of the old list
    in their original order, and whose length is
    [min (oldLength + 1) 50], hence at most 50. *)
Theorem addDecision_spec decision old :
  let new := UseDecisions.addDecision decision (Some old) in
  head new = Some decision /\
  tail new `prefix_of` old /\
  length new = Nat.min (length old + 1) 50 /\
  (length new <= 50)%nat.
Proof.
  cbv zeta. rewrite addDecision_cons. simpl.
  split; [done|]. split; [apply prefix_take|].
  rewrite length_take. lia.
Qed.
End AddDecision.

(** ** The capacity classifiers *)

(** The band of useCapacity's classifier, by the cut-points. *)
Lemma getCapacityColor_bands (r : Js.number) :
  UseCapacity.getCapacityColor r =
    if Js.lt r (Js.Finite (1 # 2)) then "available"
    else if Js.lt r (Js.Finite (7 # 10)) then "moderate"
    else "critical".
Proof. reflexivity. Qed.

(** C9: for every occupancy rate the three capacity classifiers agree
    on the band, with cut-points 0.5 and 0.7: CapacityCard's
    [getCapacityColor] is ['text-capacity-'] followed by useCapacity's
    [getCapacityColor], and CapacityCard's [getProgressColor] is
    ['bg-capacity-'] followed by the same band name. *)
Theorem capacity_classifiers_agree (r : Js.number) :
  CapacityCard.getCapacityColor r = "text-capacity-" +:+ UseCapacity.getCapacityColor r /\
  CapacityCard.getProgressColor r = "bg-capacity-" +:+ UseCapacity.getCapacityColor r /\
  (UseCapacity.getCapacityColor r = "available" <-> Js.lt r (Js.Finite (1 # 2)) = true) /\
  (UseCapacity.getCapacityColor r = "moderate" <->
     Js.lt r (Js.Finite (1 # 2)) = false /\ Js.lt r (Js.Finite (7 # 10)) = true) /\
  (UseCapacity.getCapacityColor r = "critical" <->
     Js.lt r (Js.Finite (1 # 2)) = false /\ Js.lt r (Js.Finite (7 # 10)) = false).
Proof.
  unfold CapacityCard.getCapacityColor, CapacityCard.getProgressColor,
    UseCapacity.getCapacityColor.
  destruct (Js.lt r (Js.Finite (1 # 2))), (Js.lt r (Js.Finite (7 # 10)));
    repeat split; try done; by intros [??].
Qed.

(** On finite rates the bands are the intervals below 0.5, from 0.5
    to below 0.7, and from 0.7 on. *)
Lemma getCapacityColor_finite (q : Q) :
  (q < 1 # 2 -> UseCapacity.getCapacityColor (Js.Finite q) = "available") /\
  (1 # 2 <= q -> q < 7 # 10 -> UseCapacity.getCapacityColor (Js.Finite q) = "moderate") /\
  (7 # 10 <= q -> UseCapacity.getCapacityColor (Js.Finite q) = "critical").
Proof.
  unfold UseCapacity.getCapacityColor. simpl. repeat split.
  - intros H. apply Qlt_bool_iff in H. by rewrite H.
  - intros H1 H2. apply Qlt_bool_false_iff in H1. apply Qlt_bool_iff in H2.
    by rewrite H1, H2.
  - intros H. assert (H' : 1 # 2 <= q) by lra.
    apply Qlt_bool_false_iff in H, H'. by rewrite H, H'.
Qed.

(** ** getVitalStatus *)

Import DisplayUtils.

(** The function tests the critical bounds first, then the warning
    bounds. *)
Lemma getVitalStatus_guards (vital : string) (value : Js.number) :
  getVitalStatus vital value =
    if criticalBounds vital value then "critical"
    else if warningBounds vital value then "warning"
    else "normal".
Proof.
  unfold getVitalStatus, criticalBounds, warningBounds.
  repeat match goal with
         | |- context [String.eqb vital ?s] => destruct (String.eqb vital s)
         end; reflexivity.
Qed.

(** The bands are nested: inside the critical bounds is inside the
    warning bounds. *)
Lemma criticalBounds_warningBounds (vital : string) (value : Js.number) :
  criticalBounds vital value = true -> warningBounds vital value = true.
Proof.
  unfold criticalBounds, warningBounds.
  repeat match goal with
         | |- context [String.eqb vital ?s] => destruct (String.eqb vital s)
         end;
    solve [ apply orb_lit_mono; lia | apply lt_lit_mono; lia | done ].
Qed.

Lemma unrecognized_no_case (vital : string) :
  vital ∉ recognizedVitals ->
  String.eqb vital "heart_rate" = false /\
  String.eqb vital "oxygen_saturation" = false /\
  String.eqb vital "blood_pressure_systolic" = false /\
  String.eqb vital "respiratory_rate" = false /\
  String.eqb vital "temperature" = false.
Proof.
  intros Hn. repeat split; apply String.eqb_neq; intros ->; apply Hn;
    unfold recognizedVitals; set_solver.
Qed.

(** The claim as written, guard order included, fails: a heart rate
    of 30 is inside both bounds, and is [critical] only because the
    critical guard is the first one. *)
Lemma guard_order_matters :
  criticalBounds "heart_rate" (Js.lit 30) = true /\
  warningBounds "heart_rate" (Js.lit 30) = true /\
  getVitalStatus "heart_rate" (Js.lit 30) = "critical" /\
  getVitalStatus_warning_first "heart_rate" (Js.lit 30) = "warning" /\
  ~ (forall vital value,
       vital ∈ recognizedVitals ->
       getVitalStatus_warning_first vital value = getVitalStatus vital value).
Proof.
  repeat split; try reflexivity.
  intros H. specialize (H "heart_rate" (Js.lit 30)).
  assert (Hin : "heart_rate" ∈ recognizedVitals) by by_evaluation.
  specialize (H Hin). vm_compute in H. discriminate.
Qed.

(** C10, amended: for each of the five recognized vital names and
    every numeric value the severity bands are nested, every value
    inside the critical bounds is also inside the warning bounds, so
    the critical guard has to be, and is, tested first: the result is
    [critical] inside the critical bounds, [warning] inside the
    warning bounds but outside the critical ones, and [normal]
    otherwise; for an unrecognized vital name the result is
    [normal]. *)
Theorem getVitalStatus_bands (vital : string) (value : Js.number) :
  (vital ∈ recognizedVitals ->
     (criticalBounds vital value = true -> warningBounds vital value = true) /\
     (getVitalStatus vital value = "critical" <-> criticalBounds vital value = true) /\
     (getVitalStatus vital value = "warning" <->
        warningBounds vital value = true /\ criticalBounds vital value = false) /\
     (getVitalStatus vital value = "normal" <-> warningBounds vital value = false)) /\
  (vital ∉ recognizedVitals -> getVitalStatus vital value = "normal").
Proof.
  split.
  - intros _. pose proof (criticalBounds_warningBounds vital value) as Hnest.
    rewrite getVitalStatus_guards.
    destruct (criticalBounds vital value), (warningBounds vital value);
      repeat split; try done; try (by intros [??]).
    by specialize (Hnest eq_refl).
  - intros Hn. unfold getVitalStatus.
    apply unrecognized_no_case in Hn as (-> & -> & -> & -> & ->).
    reflexivity.
Qed.

Lemma getVitalStatus_bands_witness :
  ("temperature" ∈ recognizedVitals) /\
  getVitalStatus "temperature" (Js.Finite (77 # 2)) = "warning" /\
  ("pulse" ∉ recognizedVitals) /\
  getVitalStatus "pulse" (Js.lit 400) = "normal".
Proof.
  assert (Hin : "temperature" ∈ recognizedVitals) by by_evaluation.
  assert (Hout : "pulse" ∉ recognizedVitals) by by_evaluation.
  split; [exact Hin|]. split.
  - destruct (getVitalStatus_bands "temperature" (Js.Finite (77 # 2))) as [H _].
    destruct (H Hin) as (_ & _ & Hw & _). apply Hw. split; reflexivity.
  - split; [exact Hout|].
    destruct (getVitalStatus_bands "pulse" (Js.lit 400)) as [_ H].
    exact (H Hout).
Defined.

(** ** Decision actions at the presentation interface *)

Import Types AppLayout Samples.

(** The five actions of the frontend's [ActionType] each have a case
    of their own in [getActionInfo]. *)
Lemma five_actions_displayed :
  Forall (fun a => is_member ActionType a = true /\ label (getActionInfo a) <> "Unknown")
    ["escalate"; "observe"; "delay"; "transfer"; "admit"].
Proof. repeat constructor; discriminate. Qed.

(** C1: of the six decision actions, [reprioritize] is not
    representable at the presentation interface: it is no member of
    the frontend's [ActionType], [getActionInfo] sends it to the
    [default] branch, and a published decision carrying it reaches the
    decision feed and is shown as [Unknown]. *)
Theorem reprioritize_shown_as_unknown :
  Core.actionName Core.REPRIORITIZE = "reprioritize" /\
  is_member ActionType "reprioritize" = false /\
  getActionInfo "reprioritize" =
    {| label := "Unknown"; color := "text-gray-500"; bgColor := "bg-gray-500/10" |} /\
  decisions50
    (handleWebSocketMessage
       {| type := "escalation_decision.decision_made"; data := reprioritizeDecision |}
       emptyClient) = Some [reprioritizeDecision] /\
  label (DecisionItem reprioritizeDecision) = "Unknown".
Proof. repeat split; reflexivity. Qed.

(** The other five of the six actions are representable. *)
Lemma other_actions_representable (a : Core.ActionType) :
  a <> Core.REPRIORITIZE ->
  is_member ActionType (Core.actionName a) = true /\
  label (getActionInfo (Core.actionName a)) <> "Unknown".
Proof. destruct a; intros H; try done; split; first [reflexivity | discriminate]. Qed.

(** ** Dispatch of the exposed topics *)

(** The claim as written fails at [flow_orchestrator.recommendation_ready]. *)
Lemma flow_recommendation_not_handled :
  ~ (forall t, t ∈ Core.exposedTopics ->
       is_member WebSocketEventType t = true /\ branchOf t <> CaseDefault).
Proof.
  intros H.
  destruct (H "flow_orchestrator.recommendation_ready") as [Hm _]; [by_evaluation|].
  vm_compute in Hm. discriminate.
Qed.

(** C2, amended: of the four exposed topics, the three topics
    [risk_monitor.risk_calculated],
    [capacity_intelligence.capacity_updated] and
    [escalation_decision.decision_made] are members of the frontend's
    WebSocket event type and are handled by a branch of their own of
    the message handler; [flow_orchestrator.recommendation_ready] is
    not a member and falls to the [default] branch, which leaves the
    client unchanged. *)
Theorem exposed_topics_dispatch :
  Core.exposedTopics =
    ["risk_monitor.risk_calculated"; "capacity_intelligence.capacity_updated";
     "flow_orchestrator.recommendation_ready"; "escalation_decision.decision_made"] /\
  (is_member WebSocketEventType "risk_monitor.risk_calculated" = true /\
   branchOf "risk_monitor.risk_calculated" = CaseRiskCalculated) /\
  (is_member WebSocketEventType "capacity_intelligence.capacity_updated" = true /\
   branchOf "capacity_intelligence.capacity_updated" = CaseCapacityUpdated) /\
  (is_member WebSocketEventType "escalation_decision.decision_made" = true /\
   branchOf "escalation_decision.decision_made" = CaseDecisionMade) /\
  (is_member WebSocketEventType "flow_orchestrator.recommendation_ready" = false /\
   branchOf "flow_orchestrator.recommendation_ready" = CaseDefault /\
   forall payload c,
     handleWebSocketMessage
       {| type := "flow_orchestrator.recommendation_ready"; data := payload |} c = c).
Proof. repeat split; reflexivity. Qed.

(** What the three handled branches do. *)
Lemma handle_risk_calculated (payload : Payload) (c : Client) :
  let c' := handleWebSocketMessage
              {| type := "risk_monitor.risk_calculated"; data := payload |} c in
  patientRisk c' !! field "patient_id" payload = Some payload /\
  (field "trajectory" payload = Some "critical" -> length (toasts c') = S (length (toasts c))) /\
  (field "trajectory" payload <> Some "critical" -> toasts c' = toasts c).
Proof.
  cbv zeta. unfold handleWebSocketMessage. simpl.
  case_bool_decide; simpl; rewrite lookup_insert_eq; repeat split; done.
Qed.

Lemma handle_capacity_updated (payload : Payload) (c : Client) :
  handleWebSocketMessage
    {| type := "capacity_intelligence.capacity_updated"; data := payload |} c
  = invalidateCapacity c.
Proof. reflexivity. Qed.

Lemma handle_decision_made (payload : Payload) (c : Client) :
  decisions50
    (handleWebSocketMessage
       {| type := "escalation_decision.decision_made"; data := payload |} c)
  = Some (payload :: take 49 (default [] (decisions50 c))).
Proof. reflexivity. Qed.

(** ** The patient queue *)

Section SortModel.
Context {A : Type} (cmp : A -> A -> Q).

Lemma insert_Permutation (a : A) (l : list A) : Js.insert cmp a l ≡ₚ a :: l.
Proof.
  induction l as [|b l IH]; simpl; [done|].
  destruct (Qle_bool (cmp a b) 0); [done|].
  rewrite IH. apply Permutation_swap.
Qed.

Lemma sort_Permutation (l : list A) : Js.sort cmp l ≡ₚ l.
Proof.
  induction l as [|a l IH]; simpl; [done|].
  by rewrite insert_Permutation, IH.
Qed.

(** The comparator is consistent: it induces a total preorder. *)
Hypothesis cmp_total : forall a b, cmp a b <= 0 \/ cmp b a <= 0.
Hypothesis cmp_trans : forall a b c, cmp a b <= 0 -> cmp b c <= 0 -> cmp a c <= 0.

Let le (a b : A) : Prop := cmp a b <= 0.

Lemma insert_Sorted (a : A) (l : list A) :
  Sorted le l -> Sorted le (Js.insert cmp a l).
Proof.
  induction 1 as [|b l Hl IH Hb]; simpl.
  - by repeat constructor.
  - destruct (Qle_bool (cmp a b) 0) eqn:E.
    + apply Qle_bool_iff in E. by repeat constructor.
    + constructor; [done|].
      assert (Hba : le b a).
      { destruct (cmp_total a b) as [H|H]; [|done].
        apply Qle_bool_iff in H. congruence. }
      destruct Hb as [|c l Hbc]; simpl; [by constructor|].
      destruct (Qle_bool (cmp a c) 0); by constructor.
Qed.

Lemma sort_Sorted (l : list A) : Sorted le (Js.sort cmp l).
Proof.
  induction l as [|a l IH]; simpl; [constructor|]. by apply insert_Sorted.
Qed.

Lemma sort_StronglySorted (l : list A) : StronglySorted le (Js.sort cmp l).
Proof.
  apply Sorted.Sorted_StronglySorted; [|apply sort_Sorted].
  intros a b c. apply cmp_trans.
Qed.

(** Stability: a list already in comparator order is returned as it
    is, so elements the comparator ties stay in their input order. *)
Lemma sort_sorted_id (l : list A) : StronglySorted le l -> Js.sort cmp l = l.
Proof.
  induction 1 as [|a l Hl IH Ha]; simpl; [done|].
  rewrite IH. destruct Ha as [|b l Hab _]; simpl; [done|].
  apply Qle_bool_iff in Hab. by rewrite Hab.
Qed.

(** Two input orders of the same elements give the same result,
    provided the comparator ties no two different elements. *)
Lemma sort_order_independent (l l' : list A) :
  (forall a b, a ∈ l -> b ∈ l -> cmp a b <= 0 -> cmp b a <= 0 -> a = b) ->
  l ≡ₚ l' -> Js.sort cmp l' = Js.sort cmp l.
Proof.
  intros Hanti Hperm.
  apply (StronglySorted_unique_strong le); try apply sort_StronglySorted.
  - intros a b Ha Hb Hab Hba. symmetry. apply Hanti; try done.
    + by rewrite sort_Permutation in Hb.
    + by rewrite sort_Permutation, <- Hperm in Ha.
  - by rewrite !sort_Permutation.
Qed.
End SortModel.

Import PatientQueue.

(** The comparator orders by risk score, highest first, and among
    equal risk scores by arrival time, oldest first. *)
Lemma before_iff (a b : PatientWithRisk) :
  before a b <->
  riskOf b < riskOf a \/
  (riskOf a == riskOf b /\ (arrival_time a <= arrival_time b)%Z).
Proof.
  unfold before, compareFn. cbv zeta.
  destruct (Qeq_bool (riskOf b) (riskOf a)) eqn:E; simpl.
  - apply Qeq_bool_iff in E. rewrite Zle_Qle. split.
    + intros H. right. split; [by symmetry|lra].
    + intros [H|[_ H]]; lra.
  - apply Qeq_bool_neq in E. split.
    + intros H. left. destruct (Qlt_le_dec (riskOf b) (riskOf a)) as [|Hle]; [done|].
      exfalso. apply E. lra.
    + intros [H|[H _]]; [lra|]. exfalso. apply E. by symmetry.
Qed.

Lemma before_total (a b : PatientWithRisk) : before a b \/ before b a.
Proof.
  rewrite !before_iff.
  destruct (Q_dec (riskOf a) (riskOf b)) as [[H|H]|H]; [by right; left|by left; left|].
  destruct (Z.le_ge_cases (arrival_time a) (arrival_time b)).
  - left. by right.
  - right. right. split; [by symmetry|done].
Qed.

Lemma before_trans (a b c : PatientWithRisk) : before a b -> before b c -> before a c.
Proof.
  rewrite !before_iff.
  intros [H1|[H1 T1]] [H2|[H2 T2]].
  - left. lra.
  - left. lra.
  - left. lra.
  - right. split; [lra|lia].
Qed.

Lemma tied_iff (a b : PatientWithRisk) : tied a b <-> before a b /\ before b a.
Proof.
  unfold tied. rewrite !before_iff. split.
  - intros [H T]. split; right; (split; [lra|lia]).
  - intros [[H1|[H1 T1]] [H2|[H2 T2]]]; try lra. split; [done|lia].
Qed.

Lemma StronglySorted_weaken {A : Type} (R R' : A -> A -> Prop) (l : list A) :
  (forall a b, R a b -> R' a b) -> StronglySorted R l -> StronglySorted R' l.
Proof.
  intros HR. induction 1 as [|a l Hl IH Ha]; constructor; [done|].
  eapply Forall_impl; [exact Ha|]. intros b. apply HR.
Qed.

(** The queue of two patients tied on both keys keeps whichever input
    order it is given. *)
Lemma queue_depends_on_input_order :
  [patientA; patientB] ≡ₚ [patientB; patientA] /\
  sortedPatients [patientA; patientB] = [patientA; patientB] /\
  sortedPatients [patientB; patientA] = [patientB; patientA] /\
  ~ (forall l l', l ≡ₚ l' -> sortedPatients l = sortedPatients l').
Proof.
  split; [apply Permutation_swap|]. split; [reflexivity|]. split; [reflexivity|].
  intros H. specialize (H [patientA; patientB] [patientB; patientA] (Permutation_swap _ _ _)).
  vm_compute in H. discriminate.
Qed.

(** X30: for every list of patients the queue is a rearrangement of
    it in which a patient with a higher risk score (a missing
    assessment counting as 0) stands first and, among equal risk
    scores, the earlier arrival stands first; and the resulting order
    is the same for every input order of the same patients provided
    no two different patients have both the same risk score and the
    same arrival time. *)
Theorem sortedPatients_spec (patients : list PatientWithRisk) :
  sortedPatients patients ≡ₚ patients /\
  StronglySorted
    (fun a b => riskOf b < riskOf a \/
                (riskOf a == riskOf b /\ (arrival_time a <= arrival_time b)%Z))
    (sortedPatients patients) /\
  (forall patients',
     patients ≡ₚ patients' ->
     (forall a b, a ∈ patients -> b ∈ patients -> tied a b -> a = b) ->
     sortedPatients patients' = sortedPatients patients).
Proof.
  split; [apply sort_Permutation|]. split.
  - eapply StronglySorted_weaken; [|apply (sort_StronglySorted compareFn)].
    + intros a b. apply before_iff.
    + apply before_total.
    + apply before_trans.
  - intros patients' Hperm Hties.
    apply sort_order_independent; try done.
    + apply before_total.
    + apply before_trans.
    + intros a b Ha Hb Hab Hba. apply Hties; try done. by apply tied_iff.
Qed.

Lemma sortedPatients_spec_witness :
  [patientD; patientC] ≡ₚ [patientC; patientD] /\
  (forall a b, a ∈ [patientD; patientC] -> b ∈ [patientD; patientC] ->
               tied a b -> a = b) /\
  sortedPatients [patientC; patientD] = sortedPatients [patientD; patientC] /\
  sortedPatients [patientD; patientC] = [patientD; patientC].
Proof.
  assert (Hperm : [patientD; patientC] ≡ₚ [patientC; patientD])
    by apply Permutation_swap.
  assert (Hties : forall a b, a ∈ [patientD; patientC] -> b ∈ [patientD; patientC] ->
                              tied a b -> a = b).
  { intros a b Ha Hb [_ Ht].
    apply elem_of_cons in Ha as [->|Ha]; [|apply list_elem_of_singleton in Ha as ->];
      (apply elem_of_cons in Hb as [->|Hb]; [|apply list_elem_of_singleton in Hb as ->]);
      first [reflexivity | discriminate Ht]. }
  split; [exact Hperm|]. split; [exact Hties|]. split.
  - exact (proj2 (proj2 (sortedPatients_spec [patientD; patientC])) _ Hperm Hties).
  - reflexivity.
Defined.

(** Patients the comparator ties stay in their input order. *)
Lemma sortedPatients_stable (patients : list PatientWithRisk) :
  StronglySorted before patients -> sortedPatients patients = patients.
Proof. apply sort_sorted_id. Qed.

(** ** The MCDA engine *)

Import Core.

(** C3: for every weight vector of the four criteria with non-negative
    weights summing to 1, and every criterion score vector with each
    score in [0,1], the MCDA output
    [weightedTotal = Σ weight_i * score_i] lies in [0,1]. *)
Theorem weightedTotal_bounds (w : Weights) (c : Criteria) :
  admissible w -> normalized c ->
  weighted_total (mcda w c) == weightedTotal w c /\
  0 <= weighted_total (mcda w c) /\ weighted_total (mcda w c) <= 1.
Proof.
  intros (Hs & Hu & Hc & Hi & Hsum) ((Hs0 & Hs1) & (Hu0 & Hu1) & (Hc0 & Hc1) & (Hi0 & Hi1)).
  simpl. unfold weightedTotal. split; [reflexivity|].
  destruct w as [ws wu wc wi], c as [s u k i]; simpl in *.
  assert (0 <= ws * s /\ ws * s <= ws) as [? ?] by (split; nra).
  assert (0 <= wu * u /\ wu * u <= wu) as [? ?] by (split; nra).
  assert (0 <= wc * k /\ wc * k <= wc) as [? ?] by (split; nra).
  assert (0 <= wi * i /\ wi * i <= wi) as [? ?] by (split; nra).
  split; lra.
Qed.

Lemma weightedTotal_bounds_witness :
  admissible evenWeights /\ normalized sampleCriteria /\
  0 <= weighted_total (mcda evenWeights sampleCriteria) /\
  weighted_total (mcda evenWeights sampleCriteria) <= 1.
Proof.
  assert (Hw : admissible evenWeights) by (vm_compute; intuition discriminate).
  assert (Hc : normalized sampleCriteria) by (vm_compute; intuition discriminate).
  split; [exact Hw|]. split; [exact Hc|].
  exact (proj2 (weightedTotal_bounds evenWeights sampleCriteria Hw Hc)).
Defined.

(** The bounds are attained. *)
Lemma weightedTotal_extremes (w : Weights) :
  admissible w ->
  weightedTotal w {| safety := 0; urgency := 0; capacity := 0; impact := 0 |} == 0 /\
  weightedTotal w {| safety := 1; urgency := 1; capacity := 1; impact := 1 |} == 1.
Proof.
  intros (_ & _ & _ & _ & Hsum). unfold weightedTotal. simpl. split; lra.
Qed.

(** ** The Decision Engine *)

Section DecisionEngineFacts.
Variable nonCritical : Trajectory -> Q -> Q.
Variable threshold : Q.

Local Abbreviation decide := (Core.decide nonCritical threshold).

(** C5: for every capacity score, the safe-to-wait value computed by
    the Decision Engine is 0 whenever the Risk trajectory is
    critical. *)
Theorem safe_to_wait_critical (capacityScore : Q) (topRanked : ActionType)
    (confidence : Q) (confidences : list Q) :
  safeToWait nonCritical critical capacityScore = 0 /\
  safe_to_wait (decide critical capacityScore topRanked confidence confidences) = 0.
Proof. split; reflexivity. Qed.

(** C6: for every input whose computed safe-to-wait value is below
    the configured threshold, the Decision Engine's final action is
    escalate regardless of which action the MCDA ranking placed
    first; otherwise the top-ranked MCDA action is the final
    action. *)
Theorem final_action_policy (t : Trajectory) (capacityScore : Q)
    (topRanked : ActionType) (confidence : Q) (confidences : list Q) :
  let d := decide t capacityScore topRanked confidence confidences in
  (safe_to_wait d < threshold -> action d = ESCALATE) /\
  (~ safe_to_wait d < threshold -> action d = topRanked).
Proof.
  cbv zeta. simpl. unfold finalAction. split; intros H.
  - apply Qlt_bool_iff in H. by rewrite H.
  - destruct (Js.Qlt_bool _ threshold) eqn:E; [|done].
    apply Qlt_bool_iff in E. contradiction.
Qed.

(** With a positive threshold a critical trajectory always
    escalates, whatever the capacity score and the MCDA ranking. *)
Lemma critical_escalates (capacityScore : Q) (topRanked : ActionType)
    (confidence : Q) (confidences : list Q) :
  0 < threshold ->
  action (decide critical capacityScore topRanked confidence confidences) = ESCALATE.
Proof.
  intros H. simpl. unfold finalAction. apply Qlt_bool_iff in H. by rewrite H.
Qed.

Lemma Qmin_cases (x y : Q) : Qmin x y = x \/ Qmin x y = y.
Proof.
  unfold Qmin, GenericMinMax.gmin. destruct (Qcompare x y); auto.
Qed.

Lemma combineConfidence_elem (first : Q) (others : list Q) :
  combineConfidence first others ∈ first :: others.
Proof.
  unfold combineConfidence. revert first.
  induction others as [|c cs IH]; intros first; simpl; [by left|].
  specialize (IH (Qmin first c)).
  apply elem_of_cons in IH as [IH|IH]; [|by do 2 right].
  rewrite IH. destruct (Qmin_cases first c) as [->| ->]; [by left|by right; left].
Qed.

Lemma combineConfidence_le_first (first : Q) (others : list Q) :
  combineConfidence first others <= first.
Proof.
  unfold combineConfidence. revert first.
  induction others as [|c cs IH]; intros first; simpl; [apply Qle_refl|].
  eapply Qle_trans; [apply IH|]. apply Q.le_min_l.
Qed.

Lemma combineConfidence_lower_bound (first : Q) (others : list Q) :
  Forall (fun c => combineConfidence first others <= c) (first :: others).
Proof.
  constructor; [apply combineConfidence_le_first|].
  unfold combineConfidence. revert first.
  induction others as [|c cs IH]; intros first; simpl; constructor.
  - eapply Qle_trans; [apply combineConfidence_le_first|]. apply Q.le_min_r.
  - apply IH.
Qed.

(** C7: for every final decision, its confidence equals the minimum
    of the confidences of all assessments that contributed to it: it
    is one of them and none of them is below it. *)
Theorem decision_confidence_is_minimum (t : Trajectory) (capacityScore : Q)
    (topRanked : ActionType) (confidence : Q) (confidences : list Q) :
  let d := decide t capacityScore topRanked confidence confidences in
  decision_confidence d ∈ confidence :: confidences /\
  Forall (fun c => decision_confidence d <= c) (confidence :: confidences).
Proof.
  cbv zeta. simpl. split.
  - apply combineConfidence_elem.
  - apply combineConfidence_lower_bound.
Qed.
End DecisionEngineFacts.

Lemma final_action_policy_witness :
  let critical92 := Core.decide capacityFraction (3 # 10) critical 85 OBSERVE (9 # 10) [4 # 5] in
  let stable20 := Core.decide capacityFraction (3 # 10) stable 40 OBSERVE (9 # 10) [4 # 5] in
  (safe_to_wait critical92 < 3 # 10 /\ action critical92 = ESCALATE) /\
  (~ safe_to_wait stable20 < 3 # 10 /\ action stable20 = OBSERVE).
Proof.
  cbv zeta.
  assert (H1 : safe_to_wait
                 (Core.decide capacityFraction (3 # 10) critical 85 OBSERVE (9 # 10) [4 # 5])
               < 3 # 10) by reflexivity.
  assert (H2 : ~ safe_to_wait
                   (Core.decide capacityFraction (3 # 10) stable 40 OBSERVE (9 # 10) [4 # 5])
                 < 3 # 10) by (vm_compute; discriminate).
  split; (split; [assumption|]).
  - exact (proj1 (final_action_policy capacityFraction (3 # 10) critical 85 OBSERVE
                    (9 # 10) [4 # 5]) H1).
  - exact (proj2 (final_action_policy capacityFraction (3 # 10) stable 40 OBSERVE
                    (9 # 10) [4 # 5]) H2).
Defined.

(** * Further properties of the dashboard code *)

Local Open Scope list_scope.

(** ** Status and risk colours *)

(** X1: [getVitalStatusColor] has no [default] branch, yet applied to
    the result of [getVitalStatus] it always returns a colour: red
    inside the critical bounds, yellow inside the warning bounds only,
    green otherwise, for every vital name and every number. *)
Theorem vital_status_always_coloured (vital : string) (value : Js.number) :
  getVitalStatusColor (getVitalStatus vital value) =
    Some (if criticalBounds vital value then "text-red-500"
          else if warningBounds vital value then "text-yellow-500"
          else "text-green-500") /\
  (forall status, getVitalStatusColor status = None <->
                  status ∉ ["critical"; "warning"; "normal"]).
Proof.
  split.
  - rewrite getVitalStatus_guards.
    by destruct (criticalBounds vital value), (warningBounds vital value).
  - intros status. unfold getVitalStatusColor. rewrite !not_elem_of_cons.
    destruct (String.eqb_spec status "critical") as [->|H1];
      [split; [done|by intros [? _]]|].
    destruct (String.eqb_spec status "warning") as [->|H2];
      [split; [done|by intros (_ & ? & _)]|].
    destruct (String.eqb_spec status "normal") as [->|H3];
      [split; [done|by intros (_ & _ & ? & _)]|].
    split; [|done]. intros _. repeat split; try done. apply not_elem_of_nil.
Qed.

(** X2: the two risk classifiers put every score, NaN and the
    infinities included, in the same one of the four colour bands, and
    a finite score is in the red band exactly from 70 on and in the
    green band exactly below 30. *)
Theorem risk_classifiers_agree (riskScore : Js.number) :
  (exists c, c ∈ ["red"; "orange"; "yellow"; "green"] /\
     getRiskTextColor riskScore = "text-" +:+ c +:+ "-500" /\
     getRiskBgColor riskScore = "bg-" +:+ c +:+ "-500/10 border-" +:+ c +:+ "-500") /\
  (forall q,
     (getRiskTextColor (Js.Finite q) = "text-red-500" <-> 70 <= q) /\
     (getRiskTextColor (Js.Finite q) = "text-green-500" <-> q < 30)).
Proof.
  split.
  - unfold getRiskTextColor, getRiskBgColor.
    destruct (Js.ge riskScore (Js.lit 70)); [exists "red"; split; [by_evaluation|done]|].
    destruct (Js.ge riskScore (Js.lit 50)); [exists "orange"; split; [by_evaluation|done]|].
    destruct (Js.ge riskScore (Js.lit 30)); [exists "yellow"; split; [by_evaluation|done]|].
    exists "green"; split; [by_evaluation|done].
  - intros q. unfold getRiskTextColor. simpl.
    destruct (Qle_bool (inject_Z 70) q) eqn:E70.
    { apply Qle_bool_iff in E70. unfold inject_Z in E70.
      split; split; try done; intros H; exfalso; lra. }
    destruct (Qle_bool (inject_Z 50) q) eqn:E50.
    { apply Qle_bool_iff in E50. unfold inject_Z in E50.
      assert (~ 70 <= q) by (intros H; apply Qle_bool_iff in H; unfold inject_Z in E70; congruence).
      split; split; try done; intros H'; exfalso; lra. }
    destruct (Qle_bool (inject_Z 30) q) eqn:E30.
    { apply Qle_bool_iff in E30. unfold inject_Z in E30.
      assert (~ 70 <= q) by (intros H; apply Qle_bool_iff in H; unfold inject_Z in E70; congruence).
      split; split; try done; intros H'; exfalso; lra. }
    assert (~ 70 <= q) by (intros H; apply Qle_bool_iff in H; unfold inject_Z in E70; congruence).
    assert (~ 30 <= q) by (intros H'; apply Qle_bool_iff in H'; unfold inject_Z in E30; congruence).
    split; split; try done; intros; lra.
Qed.

(** ** The patient card *)

(** X3: a patient card is flagged critical exactly when the
    trajectory is [critical] or the risk score is at least 90; a card
    flagged by its score always carries the red badge; and a patient
    without an assessment is never flagged and carries the green
    badge. *)
Theorem patient_card_flag (riskAssessment : option RiskAssessment) :
  (isCritical riskAssessment = true <->
     cardTrajectory riskAssessment = "critical" \/ 90 <= cardRiskScore riskAssessment) /\
  (90 <= cardRiskScore riskAssessment ->
     isCritical riskAssessment = true /\
     cardBadge riskAssessment = "bg-red-500/10 border-red-500") /\
  (isCritical None = false /\ cardBadge None = "bg-green-500/10 border-green-500").
Proof.
  unfold isCritical. split; [|split].
  - rewrite orb_true_iff, String.eqb_eq, Qle_bool_iff. done.
  - intros H. split.
    + rewrite orb_true_iff, Qle_bool_iff. by right.
    + unfold cardBadge, getRiskBgColor. simpl.
      assert (H70 : inject_Z 70 <= cardRiskScore riskAssessment)
        by (unfold inject_Z; lra).
      apply Qle_bool_iff in H70. by rewrite H70.
  - split; reflexivity.
Qed.

Lemma patient_card_flag_witness :
  let ra := Some (assessment "P003" 95) in
  90 <= cardRiskScore ra /\
  isCritical ra = true /\ cardBadge ra = "bg-red-500/10 border-red-500".
Proof.
  cbv zeta.
  assert (H : 90 <= cardRiskScore (Some (assessment "P003" 95))) by (vm_compute; discriminate).
  split; [exact H|].
  exact (proj1 (proj2 (patient_card_flag (Some (assessment "P003" 95)))) H).
Defined.

(** X4: [TrajectoryIcon] never renders the rising or the falling
    arrow: the icons [getTrajectoryInfo] returns are emoji, none of
    them the ['up'] or ['down'] that the icon's [switch] looks for, so
    every trajectory, known or not, gets the flat icon. *)
Theorem trajectory_icon_always_flat (trajectory : string) :
  TrajectoryIcon trajectory = Minus /\
  icon (getTrajectoryInfo trajectory) <> "up" /\
  icon (getTrajectoryInfo trajectory) <> "down".
Proof.
  unfold TrajectoryIcon, getTrajectoryInfo. cbv zeta.
  repeat match goal with
         | |- context [String.eqb trajectory ?s] => destruct (String.eqb trajectory s)
         end; repeat split; discriminate.
Qed.

(** ** Elapsed and waiting times *)

(** X5: [formatTimeAgo] shows [Just now] for anything younger than a
    minute, a date in the future included; then whole minutes from 1
    to 59, whole hours from 1 to 23, and whole days from 1 on, each
    the elapsed time rounded down. *)
Theorem formatTimeAgo_bands (now date : Z) :
  let elapsed := (now - date)%Z in
  ((elapsed < 60000)%Z -> formatTimeAgo now date = "Just now") /\
  ((60000 <= elapsed < 3600000)%Z ->
     exists k, (1 <= k <= 59)%Z /\ (k * 60000 <= elapsed < (k + 1) * 60000)%Z /\
               formatTimeAgo now date = pretty k +:+ "m ago") /\
  ((3600000 <= elapsed < 86400000)%Z ->
     exists k, (1 <= k <= 23)%Z /\ (k * 3600000 <= elapsed < (k + 1) * 3600000)%Z /\
               formatTimeAgo now date = pretty k +:+ "h ago") /\
  ((86400000 <= elapsed)%Z ->
     exists k, (1 <= k)%Z /\ (k * 86400000 <= elapsed < (k + 1) * 86400000)%Z /\
               formatTimeAgo now date = pretty k +:+ "d ago").
Proof.
  cbv zeta. unfold formatTimeAgo. cbv zeta.
  set (d := (now - date)%Z).
  assert (Hm : (d / 60000 / 60 = d / 3600000)%Z) by (rewrite Z.div_div by lia; done).
  assert (Hd : (d / 60000 / 60 / 24 = d / 86400000)%Z)
    by (rewrite !Z.div_div by lia; done).
  pose proof (Z.div_mod d 60000 ltac:(lia)) as E1.
  pose proof (Z.mod_pos_bound d 60000 ltac:(lia)) as B1.
  pose proof (Z.div_mod d 3600000 ltac:(lia)) as E2.
  pose proof (Z.mod_pos_bound d 3600000 ltac:(lia)) as B2.
  pose proof (Z.div_mod d 86400000 ltac:(lia)) as E3.
  pose proof (Z.mod_pos_bound d 86400000 ltac:(lia)) as B3.
  rewrite Hd, Hm.
  repeat split.
  - intros H. destruct (Z.ltb_spec (d / 60000) 1); [done|lia].
  - intros H. exists (d / 60000)%Z.
    destruct (Z.ltb_spec (d / 60000) 1); [lia|].
    destruct (Z.ltb_spec (d / 60000) 60); [|lia].
    repeat split; try lia; done.
  - intros H. exists (d / 3600000)%Z.
    destruct (Z.ltb_spec (d / 60000) 1); [lia|].
    destruct (Z.ltb_spec (d / 60000) 60); [lia|].
    destruct (Z.ltb_spec (d / 3600000) 24); [|lia].
    repeat split; try lia; done.
  - intros H. exists (d / 86400000)%Z.
    destruct (Z.ltb_spec (d / 60000) 1); [lia|].
    destruct (Z.ltb_spec (d / 60000) 60); [lia|].
    destruct (Z.ltb_spec (d / 3600000) 24); [lia|].
    repeat split; try lia; done.
Qed.

Lemma formatTimeAgo_bands_witness :
  (1700000000000 - 1700000005000 < 60000)%Z /\
  formatTimeAgo 1700000000000 1700000005000 = "Just now" /\
  (3600000 <= 1700007500000 - 1700000000000 < 86400000)%Z /\
  formatTimeAgo 1700007500000 1700000000000 = "2h ago".
Proof.
  assert (H1 : (1700000000000 - 1700000005000 < 60000)%Z) by lia.
  assert (H2 : (3600000 <= 1700007500000 - 1700000000000 < 86400000)%Z) by lia.
  split; [exact H1|]. split.
  - exact (proj1 (formatTimeAgo_bands 1700000000000 1700000005000) H1).
  - split; [exact H2|]. reflexivity.
Defined.

(** ** The message handler over a whole session *)

Lemma handleAll_snoc (events : list WebSocketEvent) (e : WebSocketEvent) (c : Client) :
  handleAll (events ++ [e])%list c = handleWebSocketMessage e (handleAll events c).
Proof. unfold handleAll. by rewrite foldl_snoc. Qed.

(** Which branch a message takes, by its type. *)
Lemma branchOf_cases (t : string) :
  (t = "patient.arrival" /\ branchOf t = CasePatientArrival) \/
  (t = "vitals.update" /\ branchOf t = CaseVitalsUpdate) \/
  (t = "risk_monitor.risk_calculated" /\ branchOf t = CaseRiskCalculated) \/
  (t = "capacity_intelligence.capacity_updated" /\ branchOf t = CaseCapacityUpdated) \/
  (t = "escalation_decision.decision_made" /\ branchOf t = CaseDecisionMade) \/
  ((t ∉ ["patient.arrival"; "vitals.update"; "risk_monitor.risk_calculated";
         "capacity_intelligence.capacity_updated"; "escalation_decision.decision_made"]) /\
   branchOf t = CaseDefault).
Proof.
  unfold branchOf.
  destruct (String.eqb_spec t "patient.arrival") as [->|H1]; [by left|].
  destruct (String.eqb_spec t "vitals.update") as [->|H2]; [by right; left|].
  destruct (String.eqb_spec t "risk_monitor.risk_calculated") as [->|H3];
    [by right; right; left|].
  destruct (String.eqb_spec t "capacity_intelligence.capacity_updated") as [->|H4];
    [by right; right; right; left|].
  destruct (String.eqb_spec t "escalation_decision.decision_made") as [->|H5];
    [by right; right; right; right; left|].
  do 5 right. split; [|done].
  rewrite !not_elem_of_cons. repeat split; try done. apply not_elem_of_nil.
Qed.

(** Case analysis on the branch a message takes, with the handler
    reduced in each case. *)
Ltac handler_cases e :=
  unfold handleWebSocketMessage;
  destruct (branchOf_cases (type e)) as
    [[? ->]|[[? ->]|[[? ->]|[[? ->]|[[? ->]|[? ->]]]]]]; simpl;
  try case_bool_decide; simpl.

Lemma handle_other_decisions50 (e : WebSocketEvent) (c : Client) :
  type e <> "escalation_decision.decision_made" ->
  decisions50 (handleWebSocketMessage e c) = decisions50 c.
Proof. intros H. handler_cases e; done. Qed.

Lemma handle_decision_feed (e : WebSocketEvent) (c : Client) :
  type e = "escalation_decision.decision_made" ->
  feed (handleWebSocketMessage e c) = data e :: take 49 (feed c).
Proof.
  intros H. unfold handleWebSocketMessage, feed. rewrite H. reflexivity.
Qed.

Lemma decisionsIn_snoc (events : list WebSocketEvent) (e : WebSocketEvent) :
  decisionsIn (events ++ [e])%list =
    if base.decide (type e = "escalation_decision.decision_made")
    then (decisionsIn events ++ [data e])%list else decisionsIn events.
Proof.
  unfold decisionsIn. rewrite filter_app, fmap_app.
  rewrite filter_cons, filter_nil.
  destruct (base.decide (type e = _)); simpl; [done|by rewrite app_nil_r].
Qed.

(** The feed after a session: untouched without a decision message,
    else the 50 newest of the arrived decisions followed by the old
    feed. *)
Lemma feed_handleAll (events : list WebSocketEvent) (c : Client) :
  feed (handleAll events c) =
    match decisionsIn events with
    | [] => feed c
    | _ :: _ => take 50 (rev (decisionsIn events) ++ feed c)%list
    end.
Proof.
  induction events as [|e events IH] using rev_ind; [done|].
  rewrite handleAll_snoc, decisionsIn_snoc.
  destruct (base.decide (type e = _)) as [He|He].
  - rewrite handle_decision_feed by done. rewrite IH.
    destruct (decisionsIn events) as [|d ds] eqn:E; simpl.
    + done.
    + rewrite rev_app_distr. simpl. f_equal.
      rewrite take_take. f_equal.
  - unfold feed at 1. rewrite handle_other_decisions50 by done. apply IH.
Qed.

(** X6: after any sequence of messages the decision feed is the old
    feed if no decision arrived, and otherwise the 50 newest entries
    of the arrived decisions, newest first, followed by the old feed;
    messages of other types never change it. *)
Theorem feed_after_session (events : list WebSocketEvent) (c : Client) :
  feed (handleAll events c) =
    match decisionsIn events with
    | [] => feed c
    | _ :: _ => take 50 (rev (decisionsIn events) ++ feed c)%list
    end.
Proof. apply feed_handleAll. Qed.

(** X7: the feed holds at most 50 decisions as soon as one decision
    message has been handled, whatever it held before, and its length
    is then the number of arrived decisions plus the old length,
    capped at 50. *)
Theorem feed_length_after_session (events : list WebSocketEvent) (c : Client) :
  length (feed (handleAll events c)) =
    match decisionsIn events with
    | [] => length (feed c)
    | _ :: _ => Nat.min 50 (length (decisionsIn events) + length (feed c))
    end /\
  (length (feed c) <= 50 -> length (feed (handleAll events c)) <= 50)%nat.
Proof.
  rewrite feed_handleAll.
  destruct (decisionsIn events) as [|d ds] eqn:E; [done|].
  rewrite length_take, length_app, length_rev. split; [done|lia].
Qed.

Lemma feed_length_after_session_witness :
  (length (feed emptyClient) <= 50)%nat /\
  (length (feed (handleAll [decisionMessage reprioritizeDecision] emptyClient)) <= 50)%nat.
Proof.
  assert (H : (length (feed emptyClient) <= 50)%nat) by (simpl; lia).
  split; [exact H|].
  exact (proj2 (feed_length_after_session [decisionMessage reprioritizeDecision] emptyClient) H).
Defined.

Lemma decisionsIn_cons_decision (d : Payload) (events : list WebSocketEvent) :
  decisionsIn (decisionMessage d :: events) = d :: decisionsIn events.
Proof. unfold decisionsIn. by rewrite filter_cons_True. Qed.

(** X8: a decision stays in the feed while fewer than 50 newer
    decisions have arrived, at the position that counts them; once 50
    newer ones have arrived the feed consists of the 50 newest of
    those alone. *)
Theorem decision_retention (d : Payload) (later : list WebSocketEvent) (c : Client) :
  let newer := decisionsIn later in
  let after := feed (handleAll (decisionMessage d :: later) c) in
  ((length newer < 50)%nat -> after !! length newer = Some d) /\
  ((50 <= length newer)%nat -> after = take 50 (rev newer)).
Proof.
  cbv zeta. rewrite feed_handleAll, decisionsIn_cons_decision. simpl.
  rewrite <- app_assoc. split; intros H.
  - rewrite lookup_take_lt by done.
    rewrite lookup_app_r by (rewrite length_rev; lia).
    rewrite length_rev, Nat.sub_diag. done.
  - rewrite take_app_le by (rewrite length_rev; lia). done.
Qed.

Lemma decision_retention_witness :
  let later := [decisionMessage []; decisionMessage []] in
  (length (decisionsIn later) < 50)%nat /\
  feed (handleAll (decisionMessage reprioritizeDecision :: later) emptyClient) !! 2%nat
    = Some reprioritizeDecision.
Proof.
  cbv zeta.
  assert (H : (length (decisionsIn [decisionMessage []; decisionMessage []]) < 50)%nat)
    by (vm_compute; lia).
  split; [exact H|].
  exact (proj1 (decision_retention reprioritizeDecision
                  [decisionMessage []; decisionMessage []] emptyClient) H).
Defined.

(** ** The decision feed and the detail panel *)

Import DecisionFeed PatientDetailPanel.

(** X9: when a decision message arrives, the feed scrolls back to the
    top only while it holds fewer than 50 decisions: once it is full
    the new decision replaces the oldest, the length does not grow,
    and the auto-scroll condition is false. *)
Theorem auto_scroll_stops_when_full (autoScroll hasScrollRef : bool)
    (d : Payload) (c : Client) :
  let before := feed c in
  let after := feed (handleWebSocketMessage (decisionMessage d) c) in
  (autoScrollEffect autoScroll hasScrollRef (length before) (length after)).1 =
    autoScroll && hasScrollRef && (length before <? 50)%nat /\
  (autoScrollEffect autoScroll hasScrollRef (length before) (length after)).2 =
    Nat.min 50 (S (length before)).
Proof.
  cbv zeta. rewrite handle_decision_feed by done.
  unfold autoScrollEffect. cbn [fst snd length].
  rewrite length_take.
  set (n := length (feed c)).
  assert (Hlen : S (Nat.min 49 n) = Nat.min 50 (S n)) by lia.
  rewrite Hlen. split; [|done].
  assert (Hlt : (n <? Nat.min 50 (S n))%nat = (n <? 50)%nat).
  { destruct (Nat.ltb_spec n 50), (Nat.ltb_spec n (Nat.min 50 (S n))); lia. }
  rewrite Hlt. by destruct autoScroll, hasScrollRef, (n <? 50)%nat.
Qed.

(** X10: the detail panel lists at most five decisions, all of them
    for the selected patient and in feed order; a decision that has
    just arrived for that patient is the first one listed. *)
Theorem recent_decisions_of_patient (allDecisions : option (list Payload))
    (patientId : string) :
  (length (recentDecisions allDecisions patientId) <= 5)%nat /\
  Forall (fun d => field "patient_id" d = Some patientId)
    (recentDecisions allDecisions patientId) /\
  recentDecisions allDecisions patientId `sublist_of` default [] allDecisions /\
  (forall d c, field "patient_id" d = Some patientId ->
     head (recentDecisions
             (decisions50 (handleWebSocketMessage (decisionMessage d) c)) patientId)
       = Some d).
Proof.
  unfold recentDecisions, patientDecisions. repeat split.
  - rewrite length_take. lia.
  - apply Forall_take. destruct allDecisions as [l|]; simpl; [|constructor].
    apply Forall_forall. intros d Hd. by apply list_elem_of_filter in Hd as [? _].
  - etrans; [apply sublist_take|].
    destruct allDecisions as [l|]; simpl; [apply sublist_filter|done].
  - intros d c Hd. simpl. unfold UseDecisions.addDecision. simpl.
    by rewrite filter_cons_True.
Qed.

Lemma recent_decisions_of_patient_witness :
  field "patient_id" reprioritizeDecision = Some "P001" /\
  head (recentDecisions
          (decisions50 (handleWebSocketMessage (decisionMessage reprioritizeDecision)
                          emptyClient)) "P001")
    = Some reprioritizeDecision.
Proof.
  assert (H : field "patient_id" reprioritizeDecision = Some "P001") by reflexivity.
  split; [exact H|].
  exact (proj2 (proj2 (proj2 (recent_decisions_of_patient None "P001")))
           reprioritizeDecision emptyClient H).
Defined.

(** X11: the vitals chart plots the last 20 samples, or all of them
    when there are fewer, in their order; it is empty, and the
    no-data notice is shown, exactly when there are no samples. *)
Theorem chart_shows_last_twenty {V P : Type} (point : V -> P) (vitals : list V) :
  (exists older recent,
     vitals = older ++ recent /\
     chartData point vitals = point <$> recent /\
     length recent = Nat.min (length vitals) 20) /\
  (chartData point vitals = [] <-> vitals = []).
Proof.
  unfold chartData. split.
  - exists (take (length vitals - 20) vitals), (drop (length vitals - 20) vitals).
    rewrite take_drop, length_drop. repeat split; lia.
  - split.
    + intros H. apply fmap_nil_inv in H. apply (f_equal length) in H.
      rewrite length_drop in H. simpl in H.
      destruct vitals; [done|]. simpl in H. lia.
    + by intros ->.
Qed.

(** X12: a decision in the feed gets a named badge exactly when its
    action is a member of the frontend's [ActionType]; any other
    action, and a missing one, is shown as [Unknown]. *)
Theorem badge_known_iff_action_type (decision : Payload) :
  label (DecisionItem decision) <> "Unknown" <->
  exists a, field "action" decision = Some a /\ a ∈ Types.ActionType.
Proof.
  unfold DecisionItem. split.
  - destruct (field "action" decision) as [a|]; simpl; [|done].
    intros H. exists a. split; [done|]. unfold getActionInfo in H.
    repeat match type of H with
           | context [String.eqb a ?s] =>
               destruct (String.eqb a s) eqn:E;
               [apply String.eqb_eq in E; subst a; by_evaluation|clear E]
           end.
    done.
  - intros (a & -> & Ha). simpl. unfold Types.ActionType in Ha.
    rewrite !elem_of_cons, elem_of_nil in Ha.
    destruct Ha as [->|[->|[->|[->|[->|[]]]]]]; discriminate.
Qed.

(** ** What each kind of message can change *)

(** X13: a message whose type is none of the five handled names
    leaves the client exactly as it was; [simulation.tick], although
    a member of the WebSocket event type, is such a message. *)
Theorem unhandled_types_change_nothing :
  (forall e c,
     type e ∉ ["patient.arrival"; "vitals.update"; "risk_monitor.risk_calculated";
               "capacity_intelligence.capacity_updated";
               "escalation_decision.decision_made"] ->
     handleWebSocketMessage e c = c) /\
  ("simulation.tick" ∈ WebSocketEventType) /\
  (forall payload c,
     handleWebSocketMessage {| type := "simulation.tick"; data := payload |} c = c).
Proof.
  split; [|split; [by_evaluation|done]].
  intros e c H. rewrite !not_elem_of_cons in H.
  destruct H as (H1 & H2 & H3 & H4 & H5 & _).
  handler_cases e; done.
Qed.

Lemma unhandled_types_change_nothing_witness :
  let e := {| type := "bed.change"; data := [("unit", "ICU")] |} in
  (type e ∉ ["patient.arrival"; "vitals.update"; "risk_monitor.risk_calculated";
             "capacity_intelligence.capacity_updated";
             "escalation_decision.decision_made"]) /\
  handleWebSocketMessage e emptyClient = emptyClient.
Proof.
  cbv zeta.
  assert (H : type {| type := "bed.change"; data := [("unit", "ICU")] |} ∉
              ["patient.arrival"; "vitals.update"; "risk_monitor.risk_calculated";
               "capacity_intelligence.capacity_updated";
               "escalation_decision.decision_made"]) by by_evaluation.
  split; [exact H|].
  exact (proj1 unhandled_types_change_nothing _ emptyClient H).
Defined.

(** X14: each kind of message touches its own part of the client
    only: the decision list changes on decision messages alone, the
    risk cache and the toasts on risk messages alone, and the list of
    invalidated queries on arrival, vitals and capacity messages
    alone. *)
Theorem handler_frame (e : WebSocketEvent) (c : Client) :
  let c' := handleWebSocketMessage e c in
  (type e <> "escalation_decision.decision_made" -> decisions50 c' = decisions50 c) /\
  (type e <> "risk_monitor.risk_calculated" ->
     patientRisk c' = patientRisk c /\ toasts c' = toasts c) /\
  (type e ∉ ["patient.arrival"; "vitals.update";
             "capacity_intelligence.capacity_updated"] ->
     invalidated c' = invalidated c).
Proof.
  cbv zeta. split; [apply handle_other_decisions50|]. split.
  - intros H. handler_cases e; done.
  - intros H. rewrite !not_elem_of_cons in H. destruct H as (H1 & H2 & H3 & _).
    handler_cases e; done.
Qed.

Lemma handler_frame_witness :
  let e := {| type := "vitals.update"; data := [("patient_id", "P001")] |} in
  type e <> "escalation_decision.decision_made" /\
  type e <> "risk_monitor.risk_calculated" /\
  decisions50 (handleWebSocketMessage e emptyClient) = None /\
  toasts (handleWebSocketMessage e emptyClient) = [].
Proof.
  cbv zeta.
  assert (H1 : type {| type := "vitals.update"; data := [("patient_id", "P001")] |}
               <> "escalation_decision.decision_made") by discriminate.
  assert (H2 : type {| type := "vitals.update"; data := [("patient_id", "P001")] |}
               <> "risk_monitor.risk_calculated") by discriminate.
  split; [exact H1|]. split; [exact H2|].
  destruct (handler_frame {| type := "vitals.update"; data := [("patient_id", "P001")] |}
              emptyClient) as (F1 & F2 & _).
  split; [exact (F1 H1)|exact (proj2 (F2 H2))].
Defined.

Lemma criticalAlertsIn_snoc (events : list WebSocketEvent) (e : WebSocketEvent) :
  length (criticalAlertsIn (events ++ [e])) =
    (length (criticalAlertsIn events) +
     if base.decide (type e = "risk_monitor.risk_calculated" /\
                     field "trajectory" (data e) = Some "critical") then 1 else 0)%nat.
Proof.
  unfold criticalAlertsIn. rewrite filter_app, length_app, filter_cons, filter_nil.
  by destruct (base.decide _).
Qed.

(** X15: over any session the number of toasts raised is the number
    of risk messages received with the trajectory [critical]; no
    other message raises one, and none is ever removed. *)
Theorem toasts_count_critical_alerts (events : list WebSocketEvent) (c : Client) :
  length (toasts (handleAll events c)) =
    (length (criticalAlertsIn events) + length (toasts c))%nat /\
  toasts c `suffix_of` toasts (handleAll events c).
Proof.
  induction events as [|e events [IHn IHs]] using rev_ind; [done|].
  rewrite handleAll_snoc, criticalAlertsIn_snoc.
  set (c' := handleAll events c) in *.
  assert (H : toasts (handleWebSocketMessage e c') =
              if base.decide (type e = "risk_monitor.risk_calculated" /\
                              field "trajectory" (data e) = Some "critical")
              then toasts (handleWebSocketMessage e c') else toasts c').
  { destruct (base.decide _) as [|Hn]; [done|]. handler_cases e; try done.
    exfalso. by apply Hn. }
  assert (H' : (type e = "risk_monitor.risk_calculated" /\
                field "trajectory" (data e) = Some "critical") ->
               exists t, toasts (handleWebSocketMessage e c') = t :: toasts c').
  { intros [Ht Hc]. unfold handleWebSocketMessage. rewrite Ht. simpl.
    rewrite bool_decide_eq_true_2 by done. simpl. eauto. }
  destruct (base.decide _) as [Hd|Hd].
  - destruct (H' Hd) as [t ->]. simpl. split; [lia|].
    by apply suffix_cons_r.
  - rewrite H. split; [lia|done].
Qed.

Lemma handle_risk_patientRisk (e : WebSocketEvent) (c : Client) :
  type e = "risk_monitor.risk_calculated" ->
  patientRisk (handleWebSocketMessage e c) =
    <[field "patient_id" (data e) := data e]> (patientRisk c).
Proof.
  intros H. unfold handleWebSocketMessage. rewrite H. simpl.
  by case_bool_decide.
Qed.

Lemma handle_other_patientRisk (e : WebSocketEvent) (c : Client) :
  type e <> "risk_monitor.risk_calculated" ->
  patientRisk (handleWebSocketMessage e c) = patientRisk c.
Proof. intros H. handler_cases e; done. Qed.

(** X16: after any session the risk cache holds, for each patient id,
    the payload of the last risk message received for that id, and
    the entry it had before if none was received; risk messages for
    other patients and messages of other types leave the entry
    alone. *)
Theorem risk_cache_last_writer_wins (events : list WebSocketEvent) (c : Client)
    (patientId : option string) :
  patientRisk (handleAll events c) !! patientId =
    match last (riskUpdatesFor patientId events) with
    | Some e => Some (data e)
    | None => patientRisk c !! patientId
    end.
Proof.
  induction events as [|e events IH] using rev_ind; [done|].
  rewrite handleAll_snoc. unfold riskUpdatesFor in *.
  rewrite filter_app, filter_cons, filter_nil.
  destruct (base.decide _) as [[Ht Hp]|Hn].
  - rewrite last_snoc, handle_risk_patientRisk by done.
    rewrite Hp. apply lookup_insert_eq.
  - rewrite app_nil_r, <- IH.
    destruct (base.decide (type e = "risk_monitor.risk_calculated")) as [Ht|Ht].
    + rewrite handle_risk_patientRisk by done.
      apply lookup_insert_ne. intros Hp. apply Hn. done.
    + by rewrite handle_other_patientRisk.
Qed.

(** ** Capacity views *)

Import CapacityIntelligence.

Lemma Qle_bool_true (x y : Q) : x <= y -> Qle_bool x y = true.
Proof. apply Qle_bool_iff. Qed.

Lemma Qle_bool_false (x y : Q) : y < x -> Qle_bool x y = false.
Proof.
  intros H. destruct (Qle_bool x y) eqn:E; [|done].
  apply Qle_bool_iff in E. lra.
Qed.

(** X17: every unit named in the critical-capacity alert (occupancy
    at least 0.8) is drawn in the critical colour in the heatmap and
    the table, whose classifier is the one of the capacity card's
    progress bar; the alert is the stricter of the two, a unit between
    0.7 and 0.8 being drawn critical without being named. *)
Theorem critical_alert_units_drawn_critical (capacities : list UnitCapacity) :
  Forall (fun c => getCapacityColorClass (Js.Finite (occupancy_rate c)) = "bg-capacity-critical")
    (criticalUnits (Some capacities)) /\
  (forall c, c ∈ criticalUnits (Some capacities) <->
             c ∈ capacities /\ 8 # 10 <= occupancy_rate c) /\
  (forall r, getCapacityColorClass r = CapacityCard.getProgressColor r) /\
  (forall q, getCapacityColorClass (Js.Finite q) = "bg-capacity-critical" <-> 7 # 10 <= q).
Proof.
  assert (Hcrit : forall q, getCapacityColorClass (Js.Finite q) = "bg-capacity-critical"
                            <-> 7 # 10 <= q).
  { intros q. unfold getCapacityColorClass. simpl.
    destruct (Js.Qlt_bool q (1 # 2)) eqn:E1.
    { apply Qlt_bool_iff in E1. split; [done|]. intros H. lra. }
    destruct (Js.Qlt_bool q (7 # 10)) eqn:E2.
    { apply Qlt_bool_iff in E2. split; [done|]. intros H. lra. }
    apply Qlt_bool_false_iff in E2. done. }
  assert (Hin : forall c, c ∈ criticalUnits (Some capacities) <->
                          c ∈ capacities /\ 8 # 10 <= occupancy_rate c).
  { intros c. unfold criticalUnits. simpl. rewrite list_elem_of_filter.
    rewrite Is_true_true, Qle_bool_iff. tauto. }
  repeat split; try apply Hin; try apply Hcrit; try done.
  apply Forall_forall. intros c Hc. apply Hin in Hc as [_ Hc].
  apply Hcrit. lra.
Qed.

(** X18: the heatmap always shows the five units ED, ICU, Ward, ED_Obs
    and OR, in that order, whatever the capacity list holds; a unit
    without an entry is shown with occupancy 0, no bed count, no glow
    and the available colour; a unit with several entries is shown
    with the first. *)
Theorem heatmap_tiles (capacities : list UnitCapacity) :
  tileUnit <$> CapacityHeatmap capacities = ["ED"; "ICU"; "Ward"; "ED_Obs"; "OR"] /\
  (forall u, Forall (fun c => unit c <> u) capacities ->
     tile capacities u =
       {| tileUnit := u; occupancy := 0; tilePercent := 0; glow := false;
          colorClass := "bg-capacity-available"; beds := None |}) /\
  (forall earlier c later,
     capacities = earlier ++ c :: later ->
     Forall (fun c' => unit c' <> unit c) earlier ->
     occupancy (tile capacities (unit c)) = occupancy_rate c /\
     beds (tile capacities (unit c)) = Some (available_beds c, total_beds c)).
Proof.
  split; [done|]. split.
  - intros u H. unfold tile.
    assert (E : List.find (fun c => String.eqb (unit c) u) capacities = None).
    { induction H as [|c l Hc _ IH]; simpl; [done|].
      apply String.eqb_neq in Hc. by rewrite Hc. }
    rewrite E. reflexivity.
  - intros earlier c later -> H. unfold tile.
    assert (E : List.find (fun c' => String.eqb (unit c') (unit c)) (earlier ++ c :: later)
                = Some c).
    { induction H as [|c' l Hc _ IH]; simpl.
      - by rewrite String.eqb_refl.
      - apply String.eqb_neq in Hc. by rewrite Hc. }
    rewrite E. done.
Qed.

Lemma heatmap_tiles_witness :
  Forall (fun c => unit c <> "OR") [icuCapacity] /\
  tile [icuCapacity] "OR" =
    {| tileUnit := "OR"; occupancy := 0; tilePercent := 0; glow := false;
       colorClass := "bg-capacity-available"; beds := None |}.
Proof.
  assert (H : Forall (fun c : UnitCapacity => unit c <> "OR") [icuCapacity])
    by (repeat constructor; discriminate).
  split; [exact H|].
  exact (proj1 (proj2 (heatmap_tiles [icuCapacity])) "OR" H).
Defined.

(** X19: the workload bar is never wider than 100 per cent, and its
    colour depends on the patients per nurse alone: critical above 4,
    moderate above 3 up to 4, available up to 3. *)
Theorem workload_bar (cap : UnitCapacity) :
  workloadPercent cap <= 100 /\
  (0 <= patients_per_nurse cap -> 0 <= workloadPercent cap) /\
  (workloadClass cap = "bg-capacity-critical" <-> 4 < patients_per_nurse cap) /\
  (workloadClass cap = "bg-capacity-moderate" <->
     3 < patients_per_nurse cap /\ patients_per_nurse cap <= 4) /\
  (workloadClass cap = "bg-capacity-available" <-> patients_per_nurse cap <= 3).
Proof.
  unfold workloadClass, workloadPercent.
  set (x := patients_per_nurse cap).
  assert (H80 : 80 < Qmin 100 (x * 20) <-> 4 < x).
  { rewrite Q.min_glb_lt_iff. split; [intros [_ H]; lra|intros H; split; lra]. }
  assert (H60 : 60 < Qmin 100 (x * 20) <-> 3 < x).
  { rewrite Q.min_glb_lt_iff. split; [intros [_ H]; lra|intros H; split; lra]. }
  split; [apply Q.le_min_l|]. split.
  { intros H. apply Q.min_glb; lra. }
  destruct (Js.Qlt_bool 80 (Qmin 100 (x * 20))) eqn:E80.
  { apply Qlt_bool_iff, H80 in E80. repeat split; try done; intros; lra. }
  assert (N80 : ~ 4 < x).
  { intros H. apply H80, Qlt_bool_iff in H. congruence. }
  destruct (Js.Qlt_bool 60 (Qmin 100 (x * 20))) eqn:E60.
  { apply Qlt_bool_iff, H60 in E60. repeat split; try done; intros; lra. }
  assert (N60 : ~ 3 < x).
  { intros H. apply H60, Qlt_bool_iff in H. congruence. }
  repeat split; try done; intros; lra.
Qed.

Lemma workload_bar_witness :
  0 <= patients_per_nurse icuCapacity /\ 0 <= workloadPercent icuCapacity.
Proof.
  assert (H : 0 <= patients_per_nurse icuCapacity) by (vm_compute; discriminate).
  split; [exact H|].
  exact (proj1 (proj2 (workload_bar icuCapacity)) H).
Defined.

Lemma round_bounds (x : Q) :
  inject_Z (Js.round x) <= x + (1 # 2) /\ x - (1 # 2) < inject_Z (Js.round x).
Proof.
  unfold Js.round.
  pose proof (Qfloor_le (x + (1 # 2))) as H1.
  pose proof (Qlt_floor (x + (1 # 2))) as H2.
  rewrite inject_Z_plus in H2. change (inject_Z 1) with 1 in H2.
  split; lra.
Qed.

(** X20: for an occupancy rate between 0 and 1 the percentage shown
    on a capacity card, which is also the width of its progress bar,
    lies between 0 and 100 and differs from the exact percentage by at
    most half a point plus the rounding error of the double product,
    itself at most [2^-47]; a rate of 0.285, whose product is
    28.499999999999996, is shown as 28. *)
Theorem occupancy_percent_bounds (times100 : Q -> Q) (capacity : UnitCapacity) :
  CapacityCard.nearestDouble times100 ->
  0 <= occupancy_rate capacity -> occupancy_rate capacity <= 1 ->
  (0 <= CapacityCard.occupancyPercent times100 capacity <= 100)%Z /\
  occupancy_rate capacity * 100 - (1 # 2) - (1 # 140737488355328)
    < inject_Z (CapacityCard.occupancyPercent times100 capacity) /\
  inject_Z (CapacityCard.occupancyPercent times100 capacity)
    <= occupancy_rate capacity * 100 + (1 # 2) + (1 # 140737488355328).
Proof.
  intros Hnear H0 H1. unfold CapacityCard.occupancyPercent.
  specialize (Hnear (occupancy_rate capacity) H0 H1).
  apply Qabs_Qle_condition in Hnear as [Hlo Hhi].
  destruct (round_bounds (times100 (occupancy_rate capacity))) as [Hu Hl].
  set (p := Js.round (times100 (occupancy_rate capacity))) in *.
  set (x := times100 (occupancy_rate capacity)) in *.
  set (r := occupancy_rate capacity) in *.
  split; [|split; lra].
  split.
  - assert (H : inject_Z (-1) < inject_Z p).
    { change (inject_Z (-1)) with (-1 # 1). lra. }
    rewrite <- Zlt_Qlt in H. lia.
  - assert (H : inject_Z p < inject_Z 101).
    { change (inject_Z 101) with (101 # 1). lra. }
    rewrite <- Zlt_Qlt in H. lia.
Qed.

Lemma sampleTimes100_nearest : CapacityCard.nearestDouble sampleTimes100.
Proof.
  intros r H0 H1. unfold sampleTimes100.
  apply Qabs_Qle_condition.
  destruct (Qeq_bool r (285 # 1000)) eqn:E.
  - apply Qeq_bool_iff in E. split; lra.
  - split; lra.
Qed.

Lemma occupancy_percent_bounds_witness :
  CapacityCard.nearestDouble sampleTimes100 /\
  0 <= occupancy_rate wardCapacity /\ occupancy_rate wardCapacity <= 1 /\
  (0 <= CapacityCard.occupancyPercent sampleTimes100 wardCapacity <= 100)%Z /\
  CapacityCard.occupancyPercent sampleTimes100 wardCapacity = 28%Z.
Proof.
  assert (H0 : 0 <= occupancy_rate wardCapacity) by (vm_compute; discriminate).
  assert (H1 : occupancy_rate wardCapacity <= 1) by (vm_compute; discriminate).
  split; [exact sampleTimes100_nearest|]. split; [exact H0|]. split; [exact H1|].
  split; [|reflexivity].
  exact (proj1 (occupancy_percent_bounds sampleTimes100 wardCapacity
                  sampleTimes100_nearest H0 H1)).
Defined.

(** X21: both capacity classifiers are monotone: a higher occupancy
    rate never gets a better colour, and a higher capacity score
    never gets a worse one. *)
Theorem capacity_colours_monotone (a b : Q) :
  a <= b ->
  (UseCapacity.getCapacityColor (Js.Finite a) = "critical" ->
   UseCapacity.getCapacityColor (Js.Finite b) = "critical") /\
  (UseCapacity.getCapacityColor (Js.Finite b) = "available" ->
   UseCapacity.getCapacityColor (Js.Finite a) = "available") /\
  (UseCapacity.getCapacityScoreColor (Js.Finite a) = "available" ->
   UseCapacity.getCapacityScoreColor (Js.Finite b) = "available") /\
  (UseCapacity.getCapacityScoreColor (Js.Finite b) = "critical" ->
   UseCapacity.getCapacityScoreColor (Js.Finite a) = "critical").
Proof.
  intros Hab.
  unfold UseCapacity.getCapacityColor, UseCapacity.getCapacityScoreColor, Js.gt, Js.lit.
  simpl. unfold inject_Z.
  repeat match goal with
         | |- context [Js.Qlt_bool ?x ?y] =>
             let E := fresh "E" in
             destruct (Js.Qlt_bool x y) eqn:E;
             [apply Qlt_bool_iff in E|apply Qlt_bool_false_iff in E]
         end; repeat split; intros; try done; exfalso; lra.
Qed.

Lemma capacity_colours_monotone_witness :
  (3 # 4 <= 9 # 10) /\
  (UseCapacity.getCapacityColor (Js.Finite (3 # 4)) = "critical" ->
   UseCapacity.getCapacityColor (Js.Finite (9 # 10)) = "critical").
Proof.
  assert (H : 3 # 4 <= 9 # 10) by (vm_compute; discriminate).
  split; [exact H|].
  exact (proj1 (capacity_colours_monotone (3 # 4) (9 # 10) H)).
Defined.

(** ** More on the patient queue *)

(** X22: sorting is idempotent: a queue that is already in order,
    in particular one the component has sorted before, is returned
    unchanged, no patient is lost or duplicated by it, and an empty
    list stays empty. *)
Theorem sortedPatients_idempotent (patients : list PatientWithRisk) :
  sortedPatients (sortedPatients patients) = sortedPatients patients /\
  length (sortedPatients patients) = length patients /\
  (sortedPatients patients = [] <-> patients = []).
Proof.
  split; [|split].
  - apply sort_sorted_id. apply sort_StronglySorted.
    + apply before_total.
    + apply before_trans.
  - apply Permutation_length, sort_Permutation.
  - split.
    + intros H. apply Permutation_nil. rewrite <- H.
      unfold sortedPatients. by rewrite sort_Permutation.
    + by intros ->.
Qed.

(** X23: the first card of the queue is a patient with the highest
    risk score of all, and wherever one patient stands before another
    the first has at least the risk score of the second; so a patient
    without an assessment never stands before one with a positive
    score. *)
Theorem queue_orders_by_risk (patients : list PatientWithRisk) :
  (forall first rest, sortedPatients patients = first :: rest ->
     forall p, p ∈ patients -> riskOf p <= riskOf first) /\
  (forall front a middle b back,
     sortedPatients patients = front ++ a :: middle ++ b :: back ->
     riskOf b <= riskOf a) /\
  (forall front a middle b back,
     sortedPatients patients = front ++ a :: middle ++ b :: back ->
     risk_assessment a = None -> riskOf b <= 0).
Proof.
  assert (Hs : StronglySorted before (sortedPatients patients)).
  { apply sort_StronglySorted; [apply before_total|apply before_trans]. }
  assert (Hle : forall a b, before a b -> riskOf b <= riskOf a).
  { intros a b Hab. apply before_iff in Hab as [H|[H _]]; lra. }
  assert (Hpair : forall front a middle b back,
            sortedPatients patients = front ++ a :: middle ++ b :: back ->
            riskOf b <= riskOf a).
  { intros front a middle b back E. rewrite E in Hs.
    apply StronglySorted_app_1_r in Hs.
    apply StronglySorted_inv in Hs as [_ Hall].
    rewrite Forall_forall in Hall. apply Hle, Hall.
    apply elem_of_app. right. by left. }
  split; [|split; [exact Hpair|]].
  - intros first rest E p Hp.
    assert (Hp' : p ∈ sortedPatients patients).
    { unfold sortedPatients. by rewrite sort_Permutation. }
    rewrite E in Hs, Hp'. apply StronglySorted_inv in Hs as [_ Hall].
    apply elem_of_cons in Hp' as [->|Hp']; [apply Qle_refl|].
    rewrite Forall_forall in Hall. by apply Hle, Hall.
  - intros front a middle b back E Ha.
    pose proof (Hpair _ _ _ _ _ E) as H.
    unfold riskOf at 2 in H. rewrite Ha in H. exact H.
Qed.

Lemma queue_orders_by_risk_witness :
  sortedPatients [patientA; patientC] = patientC :: [patientA] /\
  (patientA ∈ [patientA; patientC]) /\
  riskOf patientA <= riskOf patientC.
Proof.
  assert (E : sortedPatients [patientA; patientC] = patientC :: [patientA]) by reflexivity.
  assert (Hin : patientA ∈ [patientA; patientC]) by (by left).
  split; [exact E|]. split; [exact Hin|].
  exact (proj1 (queue_orders_by_risk [patientA; patientC]) _ _ E _ Hin).
Defined.

(** ** Requests *)

Import Api.

(** X24: two limits request the same decisions path exactly when
    they are the same limit, a missing limit and the limit 0 counting
    as the same: with either of those no [limit] parameter is sent. *)
Theorem decisionsPath_limit (l1 l2 : option N) :
  let effective (l : option N) :=
    match l with Some 0%N => None | _ => l end in
  (decisionsPath l1 = decisionsPath l2 <-> effective l1 = effective l2) /\
  (effective l1 = None <-> decisionsPath l1 = "/api/decisions").
Proof.
  cbv zeta.
  assert (Hnone : forall n : N, n <> 0%N ->
            decisionsPath (Some n) <> "/api/decisions").
  { intros n Hn. unfold decisionsPath.
    destruct (N.eqb_spec n 0) as [|_]; [done|]. simpl. discriminate. }
  assert (Hsome : forall a b : N, a <> 0%N -> b <> 0%N ->
            decisionsPath (Some a) = decisionsPath (Some b) -> a = b).
  { intros a b Ha Hb. unfold decisionsPath.
    destruct (N.eqb_spec a 0) as [|_]; [done|].
    destruct (N.eqb_spec b 0) as [|_]; [done|].
    simpl. intros H. simplify_eq. by apply (inj pretty). }
  split.
  - destruct l1 as [[|p1]|], l2 as [[|p2]|]; try done.
    split; [|by intros [= ->]].
    intros H. f_equal. by apply Hsome.
  - destruct l1 as [[|p1]|]; try done.
Qed.

(** X25: the arrival rate sent to start a simulation is never zero:
    it is 12.5 when the speed is missing or 0, and 12.5 times the
    speed for every other whole speed; a missing or empty scenario is
    sent as [busy_thursday] and any other scenario as it is; from the
    control page every scenario on offer and every speed of the
    slider, 1 to 10, is sent as chosen, with the duration 120; and
    the fallback scenario is not among those on offer. *)
Theorem start_simulation_body :
  (forall scenario speed, ~ arrival_rate (startSimulation scenario speed) == 0) /\
  (forall scenario, arrival_rate (startSimulation scenario None) = 25 # 2 /\
                    arrival_rate (startSimulation scenario (Some 0%Z)) = 25 # 2) /\
  (forall scenario k, (k <> 0)%Z -> (Z.abs k < 2 ^ 48)%Z ->
     arrival_rate (startSimulation scenario (Some k)) = inject_Z k * (25 # 2)) /\
  (forall speed,
     scenario (startSimulation None speed) = "busy_thursday" /\
     scenario (startSimulation (Some "") speed) = "busy_thursday" /\
     forall s, s <> "" -> scenario (startSimulation (Some s) speed) = s) /\
  (forall s k, s ∈ SimulationControl.scenarios ->
     (SimulationControl.sliderMin <= k <= SimulationControl.sliderMax)%Z ->
     SimulationControl.handleStart s k =
       {| scenario := s; duration := 120; arrival_rate := inject_Z k * (25 # 2) |}) /\
  ("busy_thursday" ∉ SimulationControl.scenarios).
Proof.
  split; [|split; [done|split; [|split; [|split; [|by_evaluation]]]]].
  - intros sc [v|]; simpl; [|done].
    destruct (Z.eqb_spec v 0) as [|Hv]; [done|].
    intros H. apply Hv.
    assert (H' : inject_Z v == inject_Z 0) by (change (inject_Z 0) with 0; lra).
    rewrite inject_Z_injective in H'. exact H'.
  - intros sc k Hk _. simpl. by destruct (Z.eqb_spec k 0).
  - intros speed. repeat split.
    intros s Hs. simpl. apply String.eqb_neq in Hs. by rewrite Hs.
  - intros s k Hs [Hlo Hhi].
    unfold SimulationControl.sliderMin, SimulationControl.sliderMax in *.
    unfold SimulationControl.handleStart, startSimulation.
    destruct (Z.eqb_spec k 0) as [|_]; [lia|].
    assert (Hne : String.eqb s "" = false).
    { apply String.eqb_neq. intros ->. revert Hs. by_evaluation. }
    by rewrite Hne.
Qed.

Lemma start_simulation_body_witness :
  (7 <> 0)%Z /\ (Z.abs 7 < 2 ^ 48)%Z /\
  ("flu_season" ∈ SimulationControl.scenarios) /\
  (SimulationControl.sliderMin <= 7 <= SimulationControl.sliderMax)%Z /\
  arrival_rate (startSimulation (Some "flu_season") (Some 7%Z)) = inject_Z 7 * (25 # 2) /\
  SimulationControl.handleStart "flu_season" 7 =
    {| scenario := "flu_season"; duration := 120; arrival_rate := inject_Z 7 * (25 # 2) |}.
Proof.
  assert (H1 : (7 <> 0)%Z) by lia.
  assert (H2 : (Z.abs 7 < 2 ^ 48)%Z) by (vm_compute; reflexivity).
  assert (H3 : "flu_season" ∈ SimulationControl.scenarios) by by_evaluation.
  assert (H4 : (SimulationControl.sliderMin <= 7 <= SimulationControl.sliderMax)%Z)
    by (unfold SimulationControl.sliderMin, SimulationControl.sliderMax; lia).
  split; [exact H1|]. split; [exact H2|]. split; [exact H3|]. split; [exact H4|].
  destruct start_simulation_body as (_ & _ & Hrate & _ & Hpage & _).
  split; [exact (Hrate (Some "flu_season") 7%Z H1 H2)|exact (Hpage _ _ H3 H4)].
Defined.

(** ** Waiting times *)

Import Text.

Lemma isDigit_pretty_N_char (x : N) : isDigit (pretty_N_char x) = true.
Proof. unfold pretty_N_char. by repeat case_match. Qed.

Lemma pretty_N_go_append (x : N) (s r : string) :
  pretty_N_go x s +:+ r = pretty_N_go x (s +:+ r).
Proof.
  revert s. induction (N.lt_wf_0 x) as [x _ IH]; intros s.
  destruct (base.decide (x = 0%N)) as [->|Hx]; [by rewrite !pretty_N_go_0|].
  rewrite (pretty_N_go_step x s), (pretty_N_go_step x (s +:+ r)) by lia.
  rewrite IH by (apply N.div_lt; lia). done.
Qed.

Lemma splitDigits_pretty_N_go (x : N) (s : string) :
  splitDigits (pretty_N_go x s) = (pretty_N_go x (splitDigits s).1, (splitDigits s).2).
Proof.
  revert s. induction (N.lt_wf_0 x) as [x _ IH]; intros s.
  destruct (base.decide (x = 0%N)) as [->|Hx].
  { rewrite !pretty_N_go_0. by destruct (splitDigits s). }
  rewrite (pretty_N_go_step x s), (pretty_N_go_step x (splitDigits s).1) by lia.
  rewrite IH by (apply N.div_lt; lia). simpl.
  by rewrite isDigit_pretty_N_char.
Qed.

(** Printed digits followed by anything that does not start with a
    digit split back into the two parts. *)
Lemma splitDigits_pretty (n : N) (r : string) :
  splitDigits r = (EmptyString, r) ->
  splitDigits (pretty n +:+ r) = (pretty n, r).
Proof.
  intros Hr. unfold pretty, pretty_N.
  case_decide as Hn.
  - replace ("0" +:+ r) with (String (pretty_N_char 0) r) by reflexivity.
    simpl. by rewrite Hr.
  - rewrite pretty_N_go_append.
    replace ("" +:+ r) with r by reflexivity.
    by rewrite splitDigits_pretty_N_go, Hr.
Qed.

Lemma pretty_append_inj (a b : N) (r1 r2 : string) :
  splitDigits r1 = (EmptyString, r1) -> splitDigits r2 = (EmptyString, r2) ->
  pretty a +:+ r1 = pretty b +:+ r2 -> a = b /\ r1 = r2.
Proof.
  intros H1 H2 E. apply (f_equal splitDigits) in E.
  rewrite !splitDigits_pretty in E by done.
  injection E as Ep Er. split; [by apply (inj pretty)|done].
Qed.

(** X26: different waiting times are never shown as the same text:
    [formatWaitTime] is injective on whole numbers of minutes; under
    an hour it prints the minutes, and from an hour on the hours
    followed by the remaining minutes unless there are none. *)
Theorem formatWaitTime_injective (a b : N) :
  (formatWaitTime a = formatWaitTime b -> a = b) /\
  ((a < 60)%N -> formatWaitTime a = pretty a +:+ "m") /\
  ((60 <= a)%N -> (a mod 60 = 0)%N -> formatWaitTime a = pretty (a / 60)%N +:+ "h").
Proof.
  split; [|split].
  - unfold formatWaitTime. cbv zeta.
    pose proof (N.div_mod a 60 ltac:(lia)) as Da.
    pose proof (N.div_mod b 60 ltac:(lia)) as Db.
    destruct (N.ltb_spec a 60), (N.ltb_spec b 60);
      destruct (N.eqb_spec (a mod 60) 0), (N.eqb_spec (b mod 60) 0);
      intros E; apply pretty_append_inj in E as [E1 E2]; try done;
      try lia.
    simpl in E2. injection E2 as E2.
    apply pretty_append_inj in E2 as [E2 _]; try done. lia.
  - intros H. unfold formatWaitTime. by destruct (N.ltb_spec a 60); [|lia].
  - intros H H0. unfold formatWaitTime. cbv zeta.
    destruct (N.ltb_spec a 60); [lia|]. by destruct (N.eqb_spec (a mod 60) 0).
Qed.

Lemma formatWaitTime_injective_witness :
  (45 < 60)%N /\ formatWaitTime 45 = "45m" /\
  (60 <= 120)%N /\ (120 mod 60 = 0)%N /\ formatWaitTime 120 = "2h".
Proof.
  assert (H1 : (45 < 60)%N) by lia.
  assert (H2 : (60 <= 120)%N) by lia.
  assert (H3 : (120 mod 60 = 0)%N) by reflexivity.
  split; [exact H1|]. split.
  - exact (proj1 (proj2 (formatWaitTime_injective 45 45)) H1).
  - split; [exact H2|]. split; [exact H3|].
    exact (proj2 (proj2 (formatWaitTime_injective 120 120)) H2 H3).
Defined.

(** ** Units and occupancy colours *)

(** X27: the two colourings of an occupancy rate agree at the ends
    and differ in between: [getOccupancyColor] is green exactly where
    the capacity card is in its available colour (below 0.5), its red
    band (from 0.9) lies inside the card's critical band (from 0.7),
    and from 0.7 up to 0.75 the card is already critical while
    [getOccupancyColor] is still yellow. *)
Theorem occupancy_colourings (q : Q) :
  (getOccupancyColor (Js.Finite q) = "text-green-500" <->
   CapacityCard.getCapacityColor (Js.Finite q) = "text-capacity-available") /\
  (getOccupancyColor (Js.Finite q) = "text-red-500" ->
   CapacityCard.getCapacityColor (Js.Finite q) = "text-capacity-critical") /\
  (7 # 10 <= q -> q < 75 # 100 ->
   CapacityCard.getCapacityColor (Js.Finite q) = "text-capacity-critical" /\
   getOccupancyColor (Js.Finite q) = "text-yellow-500").
Proof.
  unfold getOccupancyColor, CapacityCard.getCapacityColor. simpl.
  repeat match goal with
         | |- context [Js.Qlt_bool ?x ?y] =>
             let E := fresh "E" in
             destruct (Js.Qlt_bool x y) eqn:E;
             [apply Qlt_bool_iff in E|apply Qlt_bool_false_iff in E]
         | |- context [Qle_bool ?x ?y] =>
             let E := fresh "E" in
             destruct (Qle_bool x y) eqn:E;
             [apply Qle_bool_iff in E|
              assert (y < x) by (apply Qnot_le_lt; intros Hle;
                                 apply Qle_bool_iff in Hle; congruence);
              clear E]
         end; repeat split; intros; try done; exfalso; lra.
Qed.

Lemma occupancy_colourings_witness :
  7 # 10 <= 72 # 100 /\ 72 # 100 < 75 # 100 /\
  CapacityCard.getCapacityColor (Js.Finite (72 # 100)) = "text-capacity-critical" /\
  getOccupancyColor (Js.Finite (72 # 100)) = "text-yellow-500".
Proof.
  assert (H1 : 7 # 10 <= 72 # 100) by (vm_compute; discriminate).
  assert (H2 : 72 # 100 < 75 # 100) by reflexivity.
  split; [exact H1|]. split; [exact H2|].
  exact (proj2 (proj2 (occupancy_colourings (72 # 100))) H1 H2).
Defined.

(** X28: a unit gets a label of its own and a colour of its own
    exactly when it is one of the five members of [LocationType]; any
    other unit is labelled with its own code and drawn grey; and the
    heatmap shows exactly those five units. *)
Theorem known_units (u : string) :
  (CapacityCard.getUnitLabel u <> u <-> u ∈ LocationType) /\
  (getLocationColor u <> "bg-gray-500/20 text-gray-400" <-> u ∈ LocationType) /\
  units = LocationType.
Proof.
  unfold CapacityCard.getUnitLabel, getLocationColor, LocationType.
  rewrite !elem_of_cons, elem_of_nil.
  destruct (String.eqb_spec u "ICU") as [->|H1]; [repeat split; try done; intros; tauto|].
  destruct (String.eqb_spec u "ED") as [->|H2]; [repeat split; try done; intros; tauto|].
  destruct (String.eqb_spec u "Ward") as [->|H3]; [repeat split; try done; intros; tauto|].
  destruct (String.eqb_spec u "ED_Obs") as [->|H4]; [repeat split; try done; intros; tauto|].
  destruct (String.eqb_spec u "OR") as [->|H5]; [repeat split; try done; intros; tauto|].
  repeat split; try done; intros; tauto.
Qed.

(** X29: the capacity overview shows the entries of the units ED, ICU
    and Ward, all of them and in their order; entries of ED_Obs, OR or
    any other unit are never shown, although the heatmap has a tile
    for them. *)
Theorem overview_main_units (capacities : list UnitCapacity) :
  (forall c, c ∈ CapacityCard.mainUnits capacities <->
             c ∈ capacities /\ unit c ∈ ["ED"; "ICU"; "Ward"]) /\
  CapacityCard.mainUnits capacities `sublist_of` capacities /\
  Forall (fun c => unit c ∈ units /\ unit c <> "ED_Obs" /\ unit c <> "OR")
    (CapacityCard.mainUnits capacities) /\
  CapacityCard.mainUnits (CapacityCard.mainUnits capacities)
    = CapacityCard.mainUnits capacities.
Proof.
  unfold CapacityCard.mainUnits. split; [|split; [|split]].
  - intros c. rewrite list_elem_of_filter. tauto.
  - apply sublist_filter.
  - apply Forall_forall. intros c Hc. apply list_elem_of_filter in Hc as [Hu _].
    unfold units. rewrite !elem_of_cons, elem_of_nil in *.
    destruct Hu as [->|[->|[->|[]]]]; repeat split; try done; tauto.
  - induction capacities as [|c l IH]; [done|].
    rewrite filter_cons. case_decide as Hc; [|done].
    rewrite filter_cons_True by done. by rewrite IH.
Qed.

(** ** The MCDA ranking *)







